(** * Huji-meet: transcription ingestion, webhook callback and summary generation

    A shallow embedding of the three edge functions that carry the
    pipeline of the repository:

    - [supabase/functions/start_transcription/index.ts] (module [StartTranscription]),
    - the webhook callback handler (module [Webhook]),
    - the summary generator (module [GenerateSummary]),

    over a small model of the JavaScript library functions they call
    (module [Js]) and of the Postgres tables they read and write
    (module [Db]).

    Numbers: the provider reports times in seconds as JSON numbers.  They are
    modelled as rationals ([Q]); [Math.round] is floor(x + 1/2).  The binary
    rounding of the product [x * 1000] is not modelled. *)

From Stdlib Require Import ZArith QArith Qround String Ascii List DecimalString Lia Bool.
From Stdlib Require Import Sorted.
From stdpp Require Import base option list gmap strings.
Import ListNotations.

Local Open Scope Z_scope.
Local Open Scope string_scope.
Local Open Scope list_scope.

(** ** JavaScript library functions used by the handlers *)

Module Js.

(** [a ?? d] *)
Definition nullish {A} (o : option A) (d : A) : A :=
  match o with Some a => a | None => d end.

(** Truthiness of an optional string: [undefined], [null] and [''] are falsy. *)
Definition truthy (o : option string) : bool :=
  match o with
  | Some s => negb (String.eqb s "")
  | None => false
  end.

(** [a || d] on optional strings. *)
Definition or_else (o : option string) (d : string) : string :=
  match o with
  | Some s => if String.eqb s "" then d else s
  | None => d
  end.

(** [Math.round]: the integer nearest to [x], halves rounded up. *)
Definition Math_round (x : Q) : Z := Qfloor (x + (1 # 2)).

(** [String(n)] for an integer [n]. *)
Definition String_of_Z (n : Z) : string :=
  match n with
  | Z0 => "0"
  | Zpos p => NilEmpty.string_of_uint (Pos.to_uint p)
  | Zneg p => String "-" (NilEmpty.string_of_uint (Pos.to_uint p))
  end.

(** [Array.prototype.join] *)
Fixpoint join (sep : string) (l : list string) : string :=
  match l with
  | [] => ""
  | [x] => x
  | x :: l' => x +:+ sep +:+ join sep l'
  end.

(** [s.split(c)] for a separator [c] of one character. *)
Fixpoint split (sep : ascii) (s : string) : list string :=
  match s with
  | EmptyString => [""]
  | String c s' =>
      if Ascii.eqb c sep then "" :: split sep s'
      else match split sep s' with
           | h :: t => String c h :: t
           | [] => [String c ""]
           end
  end.

(** Drop the first [n] characters. *)
Fixpoint drop_chars (n : nat) (s : string) : string :=
  match n, s with
  | O, _ => s
  | S n', String _ s' => drop_chars n' s'
  | S _, EmptyString => EmptyString
  end.

(** The text before and the text after the first occurrence of [pat] in [s];
    [None] when [pat] does not occur. *)
Fixpoint splitFirst (pat s : string) : option (string * string) :=
  if String.prefix pat s then Some ("", drop_chars (String.length pat) s)
  else match s with
       | EmptyString => None
       | String c s' =>
           match splitFirst pat s' with
           | Some (a, b) => Some (String c a, b)
           | None => None
           end
       end.

(** [GetSubstitution] of ECMA-262 for a string pattern (no captures): in the
    replacement text [$$] stands for a dollar sign, [$&] for the matched
    text, [$`] for the text before the match and [$'] for the text after
    it; every other character, a dollar sign included, stands for itself. *)
Fixpoint getSubstitution (matched before after template : string) : string :=
  match template with
  | EmptyString => EmptyString
  | String c t' =>
      if Ascii.eqb c "$" then
        match t' with
        | EmptyString => String c EmptyString
        | String d t'' =>
            if Ascii.eqb d "$" then String "$" (getSubstitution matched before after t'')
            else if Ascii.eqb d "&" then matched +:+ getSubstitution matched before after t''
            else if Ascii.eqb d "`" then before +:+ getSubstitution matched before after t''
            else if Ascii.eqb d "'" then after +:+ getSubstitution matched before after t''
            else String c (getSubstitution matched before after t')
        end
      else String c (getSubstitution matched before after t')
  end.

(** [s.replace(pat, repl)] with a string pattern: the first occurrence only. *)
Definition replace (s pat repl : string) : string :=
  match splitFirst pat s with
  | None => s
  | Some (a, b) => a +:+ getSubstitution pat a b repl +:+ b
  end.

(** [s.padStart(n, c)] with a filler of one character. *)
Definition padStart (n : nat) (c : ascii) (s : string) : string :=
  string_of_list_ascii (repeat c (n - String.length s)) +:+ s.

(** [s] has no occurrence of the character [c]. *)
Fixpoint lacks (c : ascii) (s : string) : bool :=
  match s with
  | EmptyString => true
  | String d s' => negb (Ascii.eqb d c) && lacks c s'
  end.

End Js.

(** ** Provider results and table rows *)

(** One word of the provider's word-level output; every field may be absent. *)
Module Word.
Record t := mk {
  speaker_id : option string;
  start : option Q;
  end_ : option Q;
  text : option string
}.
End Word.

(** The body of a provider answer: the synchronous result of
    [start_transcription] and the payload of a webhook callback. *)
Module Payload.
Record t := mk {
  status : option string;
  error : option string;
  words : option (list Word.t);
  text : option string;
  duration : option Q
}.
End Payload.

(** A row handed to [from('transcript_segments').insert]. *)
Module Segment.
Record t := mk {
  meeting_id : string;
  speaker_id : string;
  speaker_label : string;
  start_ms : Z;
  end_ms : Z;
  text : string
}.
End Segment.

Inductive MeetingStatus := uploaded | transcribing | ready | meeting_failed.
Inductive JobStatus := queued | running | completed | failed.

Module Meeting.
Record t := mk {
  owner_id : string;
  media_path : string;
  duration_seconds : option Z;
  status : MeetingStatus
}.
End Meeting.

Module Job.
Record t := mk {
  meeting_id : string;
  provider : string;
  provider_job_id : option string;
  status : JobStatus;
  error : option string;
  raw_response : option Payload.t
}.

(** The object handed to [from('transcription_jobs').update]; an absent
    column is left as it is. *)
Record patch := mkPatch {
  p_status : JobStatus;
  p_error : option string;
  p_raw_response : option Payload.t;
  p_provider_job_id : option string
}.

Definition override {A} (new old : option A) : option A :=
  match new with Some _ => new | None => old end.

Definition update (p : patch) (j : t) : t :=
  {| meeting_id := meeting_id j;
     provider := provider j;
     provider_job_id := override (p_provider_job_id p) (provider_job_id j);
     status := p_status p;
     error := override (p_error p) (error j);
     raw_response := override (p_raw_response p) (raw_response j) |}.
End Job.

Module Template.
Record t := mk {
  system_prompt : string;
  user_prompt : string;
  is_default : bool
}.
End Template.

(** The answer of the text-generation provider, as far as the handler reads
    it: [choices?.[0]?.message?.content]. *)
Module LlmResult.
Record t := mk { content : option string }.
End LlmResult.

Module Summary.
Record t := mk {
  id : string;
  meeting_id : string;
  version : Z;
  template_id : string;
  model_id : string;
  content_md : string;
  raw_response : LlmResult.t
}.
End Summary.

(** The singleton row of [app_settings]. *)
Module Settings.
Record t := mk {
  elevenlabs_default_model_id : option string;
  elevenlabs_diarize_default : bool;
  elevenlabs_tag_audio_events_default : bool;
  openrouter_default_model : option string;
  openrouter_temperature : Q;
  openrouter_max_tokens : Z
}.
End Settings.

(** ** The segment-building loop

    The loop is the same text in [start_transcription] (lines 158-195) and in
    the webhook handler (lines 69-105).

    Times are rational numbers and the product by 1000 is the exact one.  The
    code multiplies doubles: its product is the double nearest to the exact
    one, so that for an exact product within one unit in the last place of a
    half (0.5005 s) the code can round to the neighbour of the integer given
    here.  Products that are integers, such as those of times given in whole
    milliseconds, are the same in both. *)

Module SegmentBuilder.
Import Js.

(** [word.speaker_id ?? 'speaker_0'] *)
Definition speaker (w : Word.t) : string := nullish (Word.speaker_id w) "speaker_0".
(** [Math.round((word.start ?? 0) * 1000)] *)
Definition wordStart (w : Word.t) : Z := Math_round (nullish (Word.start w) 0%Q * 1000).
(** [Math.round((word.end ?? 0) * 1000)] *)
Definition wordEnd (w : Word.t) : Z := Math_round (nullish (Word.end_ w) 0%Q * 1000).
(** [word.text ?? ''] *)
Definition wordText (w : Word.t) : string := nullish (Word.text w) "".

(** The variables of the loop. *)
Record Loop := mkLoop {
  segments : list Segment.t;
  currentSpeaker : string;
  segmentStart : Z;
  segmentWords : list string;
  segmentEnd : Z
}.

(** The object pushed on [segments] when a run is closed. *)
Definition closeRun (meetingId : string) (st : Loop) : Segment.t :=
  {| Segment.meeting_id := meetingId;
     Segment.speaker_id := currentSpeaker st;
     Segment.speaker_label := "Speaker " +:+ replace (currentSpeaker st) "speaker_" "";
     Segment.start_ms := segmentStart st;
     Segment.end_ms := segmentEnd st;
     Segment.text := join " " (segmentWords st) |}.

(** One iteration of [for (const word of words)]. *)
Definition step (meetingId : string) (st : Loop) (word : Word.t) : Loop :=
  let st1 :=
    if negb (String.eqb (speaker word) (currentSpeaker st)) then
      {| segments := segments st ++ [closeRun meetingId st];
         currentSpeaker := speaker word;
         segmentStart := wordStart word;
         segmentWords := [];
         segmentEnd := segmentEnd st |}
    else st in
  {| segments := segments st1;
     currentSpeaker := currentSpeaker st1;
     segmentStart := segmentStart st1;
     segmentWords := segmentWords st1 ++ [wordText word];
     segmentEnd := wordEnd word |}.

(** The variables before the loop, read from [words[0]]. *)
Definition init (w0 : Word.t) : Loop :=
  {| segments := [];
     currentSpeaker := speaker w0;
     segmentStart := wordStart w0;
     segmentWords := [];
     segmentEnd := wordStart w0 |}.

(** [if (segmentWords.length > 0) segments.push(...)] after the loop. *)
Definition finish (meetingId : string) (st : Loop) : list Segment.t :=
  if (0 <? length (segmentWords st))%nat then segments st ++ [closeRun meetingId st]
  else segments st.

(** The array [segments] built from a word list.  The handlers run the loop
    under [words.length > 0] only; on the empty list nothing is built. *)
Definition buildSegments (meetingId : string) (words : list Word.t) : list Segment.t :=
  match words with
  | [] => []
  | w0 :: _ => finish meetingId (fold_left (step meetingId) words (init w0))
  end.

(** *** The specification side: maximal same-speaker runs *)

(** The word list cut at every change of speaker. *)
Fixpoint speakerRuns (ws : list Word.t) : list (list Word.t) :=
  match ws with
  | [] => []
  | w :: ws' =>
      match speakerRuns ws' with
      | (w' :: r) :: rs =>
          if String.eqb (speaker w) (speaker w') then (w :: w' :: r) :: rs
          else [w] :: (w' :: r) :: rs
      | _ => [[w]]
      end
  end.

(** The segment the specification assigns to a run: the speaker and the start
    of its first word, the end of its last word, the word texts joined by
    spaces. *)
Definition segmentOfRun (meetingId : string) (run : list Word.t) : Segment.t :=
  let first := hd (Word.mk None None None None) run in
  let final := List.last run first in
  {| Segment.meeting_id := meetingId;
     Segment.speaker_id := speaker first;
     Segment.speaker_label := "Speaker " +:+ replace (speaker first) "speaker_" "";
     Segment.start_ms := wordStart first;
     Segment.end_ms := wordEnd final;
     Segment.text := join " " (map wordText run) |}.

(** All words of a run have the speaker [s]. *)
Definition runOf (s : string) (run : list Word.t) : Prop :=
  Forall (fun w => speaker w = s) run.

(** Scenario A of the specification, with the times in seconds. *)
Definition scenarioA : list Word.t :=
  [ Word.mk (Some "A") (Some 0%Q) (Some (1 # 2)%Q) (Some "hi");
    Word.mk (Some "A") (Some (1 # 2)%Q) (Some (9 # 10)%Q) (Some "there");
    Word.mk (Some "B") (Some 1%Q) (Some (14 # 10)%Q) (Some "hello") ].

End SegmentBuilder.

(** ** The tables, and the writes the handlers send to them *)

Inductive Write :=
| UpdateMeeting (id : string) (status : MeetingStatus) (duration_seconds : option (option Z))
| InsertJob (id : string) (row : Job.t)
| UpdateJob (id : string) (p : Job.patch)
| InsertSegments (rows : list Segment.t)
| InsertSummary (row : Summary.t).

Module Db.

(** The tables the handlers touch.  [transcript_segments] keeps its rows in
    the order of insertion, each with the [id] the table gave it: the
    column's default [gen_random_uuid()] is modelled by a serial number no
    earlier row has. *)
Record t := mk {
  meetings : gmap string Meeting.t;
  transcription_jobs : gmap string Job.t;
  transcript_segments : list (nat * Segment.t);
  next_id : nat;
  summaries : list Summary.t;
  summary_templates : gmap string Template.t;
  app_settings : option Settings.t
}.

Definition hasMeeting (d : t) (id : string) : bool :=
  bool_decide (is_Some (meetings d !! id)).

Definition updateMeeting (status : MeetingStatus) (dur : option (option Z))
    (m : Meeting.t) : Meeting.t :=
  {| Meeting.owner_id := Meeting.owner_id m;
     Meeting.media_path := Meeting.media_path m;
     Meeting.duration_seconds :=
       match dur with Some v => v | None => Meeting.duration_seconds m end;
     Meeting.status := status |}.

(** The effect of one write.  An [update ... eq('id', k)] changes the row
    with key [k] if there is one.  An [insert] is refused (and the handlers
    do not look at the refusal) when the primary key is taken or when the
    row's [meeting_id] references no meeting. *)
Definition apply (w : Write) (d : t) : t :=
  match w with
  | UpdateMeeting id status dur =>
      mk (alter (updateMeeting status dur) id (meetings d)) (transcription_jobs d)
         (transcript_segments d) (next_id d) (summaries d) (summary_templates d)
         (app_settings d)
  | InsertJob id row =>
      if bool_decide (transcription_jobs d !! id = None) && hasMeeting d (Job.meeting_id row)
      then mk (meetings d) (<[id := row]> (transcription_jobs d))
              (transcript_segments d) (next_id d) (summaries d) (summary_templates d)
              (app_settings d)
      else d
  | UpdateJob id p =>
      mk (meetings d) (alter (Job.update p) id (transcription_jobs d))
         (transcript_segments d) (next_id d) (summaries d) (summary_templates d)
         (app_settings d)
  | InsertSegments rows =>
      if forallb (fun r => hasMeeting d (Segment.meeting_id r)) rows
      then mk (meetings d) (transcription_jobs d)
              (transcript_segments d ++ combine (seq (next_id d) (length rows)) rows)
              (next_id d + length rows)%nat (summaries d) (summary_templates d)
              (app_settings d)
      else d
  | InsertSummary row =>
      if forallb (fun s => negb (String.eqb (Summary.id s) (Summary.id row))) (summaries d)
         && hasMeeting d (Summary.meeting_id row)
      then mk (meetings d) (transcription_jobs d) (transcript_segments d) (next_id d)
              (summaries d ++ [row]) (summary_templates d) (app_settings d)
      else d
  end.

(** The tables after a sequence of writes. *)
Definition applyAll (ws : list Write) (d : t) : t := fold_left (fun d w => apply w d) ws d.


(** Insertion into a list kept in the order [le]; equal keys keep their
    order of arrival. *)
Fixpoint insertBy {A} (le : A -> A -> bool) (x : A) (l : list A) : list A :=
  match l with
  | [] => [x]
  | y :: l' => if le x y then x :: y :: l' else y :: insertBy le x l'
  end.

(** [order(column)]: the rows sorted by [le]. *)
Definition orderBy {A} (le : A -> A -> bool) (l : list A) : list A :=
  fold_right (insertBy le) [] l.

End Db.

(** ** Handlers: requests, answers, and the monad of a handler body *)

Module Http.

(** The body of an answer of a handler. *)
Inductive Body :=
| Null
| Text (s : string)
| Error (error : string)
| Transcription (jobId provider_job_id status : string)
| SummaryCreated (summaryId : string) (version : Z) (content_md : string).

Record Response := mkResponse { status : Z; body : Body }.

(** What [fetch] resolves to: the status line, the body as text, and the
    body parsed as JSON ([None] when [json()] rejects). *)
Record Fetched (A : Type) := mkFetched {
  f_status : Z;
  f_text : string;
  f_json : option A
}.
Arguments mkFetched {A}.
Arguments f_status {A}.
Arguments f_text {A}.
Arguments f_json {A}.

(** [response.ok] *)
Definition ok {A} (r : Fetched A) : bool := ((200 <=? f_status r) && (f_status r <=? 299))%Z.

End Http.

(** A handler body runs over the tables and the log of the writes it has
    sent; it ends by going on with a value, by [return]ing an answer, or by
    throwing. *)
Module Handler.
Import Http.

Record World := mkWorld { db : Db.t; trace : list Write }.

Inductive Exit := Returned (r : Response) | Thrown (message : string).

Definition M (A : Type) : Type := World -> (A + Exit) * World.

Definition ret {A} (a : A) : M A := fun w => (inl a, w).

Definition bind {A B} (m : M A) (k : A -> M B) : M B :=
  fun w => match m w with
           | (inl a, w') => k a w'
           | (inr e, w') => (inr e, w')
           end.

(** [return new Response(...)] *)
Definition return_ {A} (r : Response) : M A := fun w => (inr (Returned r), w).

(** [throw new Error(message)] *)
Definition throw {A} (message : string) : M A := fun w => (inr (Thrown message), w).

(** A query: reads the tables. *)
Definition select {A} (q : Db.t -> A) : M A := fun w => (inl (q (db w)), w).

(** A write: changes the tables and is logged. *)
Definition write (op : Write) : M unit :=
  fun w => (inl tt, {| db := Db.apply op (db w); trace := trace w ++ [op] |}).

(** The value of [o], or leave with [e] when it is absent. *)
Definition orExit {A} (o : option A) (e : Exit) : M A :=
  fun w => match o with Some a => (inl a, w) | None => (inr e, w) end.

(** [when c m]: [if (c) { m }] *)
Definition when (c : bool) (m : M unit) : M unit := if c then m else ret tt.

End Handler.

Notation "x <- c ;; k" := (Handler.bind c (fun x => k))
  (at level 100, c at next level, right associativity).
Notation "c ;;; k" := (Handler.bind c (fun _ => k))
  (at level 100, right associativity).

(** The part of both transcription handlers that follows a provider answer. *)
Module Finalize.
Import Js.

(** [result.duration ? Math.round(result.duration) : null] *)
Definition roundedDuration (result : Payload.t) : option Z :=
  match Payload.duration result with
  | Some d => if Qeq_bool d 0 then None else Some (Math_round d)
  | None => None
  end.

(** [result.words || []] *)
Definition wordsOf (result : Payload.t) : list Word.t := nullish (Payload.words result) [].

(** The single segment [start_transcription] writes from a plain text. *)
Definition textSegment (meetingId : string) (result : Payload.t) (text : string) : Segment.t :=
  {| Segment.meeting_id := meetingId;
     Segment.speaker_id := "speaker_0";
     Segment.speaker_label := "Speaker 0";
     Segment.start_ms := 0;
     Segment.end_ms := Math_round (nullish (Payload.duration result) 0%Q * 1000);
     Segment.text := text |}.

End Finalize.

(** ** [supabase/functions/start_transcription/index.ts] *)

Module StartTranscription.
Import Js Http Handler Finalize.

Record Options := mkOptions {
  languageCode : option string;
  diarize : option bool;
  tagAudioEvents : option bool;
  modelId : option string
}.

Record Params := mkParams { meetingId : string; options : option Options }.

Record Request := mkRequest {
  method : string;
  authorization : option string;
  json : option Params
}.

(** The form posted to the speech-to-text provider. *)
Record Form := mkForm {
  cloud_storage_url : string;
  model_id : string;
  form_diarize : bool;
  tag_audio_events : bool;
  language_code : option string
}.

(** What the handler gets from outside the tables: the environment, the
    authentication service ([None]: an error or no user), the fresh job id,
    the storage service and the provider ([None]: [fetch] rejects). *)
Record Env := mkEnv {
  ELEVENLABS_API_KEY : option string;
  getUser : string -> option string;
  randomUUID : string;
  createSignedUrl : string -> option string;
  fetch : Form -> option (Fetched Payload.t)
}.

(** [from('meetings').select('*').eq('id', meetingId).eq('owner_id', user.id).single()] *)
Definition selectMeeting (meetingId user : string) (d : Db.t) : option Meeting.t :=
  match Db.meetings d !! meetingId with
  | Some m => if String.eqb (Meeting.owner_id m) user then Some m else None
  | None => None
  end.

Definition effectiveDiarize (options : option Options) (settings : option Settings.t) : bool :=
  nullish (options ≫= diarize)
          (nullish (Settings.elevenlabs_diarize_default <$> settings) true).

Definition effectiveTagAudioEvents (options : option Options) (settings : option Settings.t) : bool :=
  nullish (options ≫= tagAudioEvents)
          (nullish (Settings.elevenlabs_tag_audio_events_default <$> settings) false).

Definition effectiveModelId (options : option Options) (settings : option Settings.t) : string :=
  or_else (options ≫= modelId)
          (or_else (settings ≫= Settings.elevenlabs_default_model_id) "scribe_v2").

(** Lines 99-106: the fields appended to [formData]. *)
Definition formData (signedUrl : string) (options : option Options)
    (settings : option Settings.t) : Form :=
  {| cloud_storage_url := signedUrl;
     model_id := effectiveModelId options settings;
     form_diarize := effectiveDiarize options settings;
     tag_audio_events := effectiveTagAudioEvents options settings;
     language_code :=
       if truthy (options ≫= languageCode) then options ≫= languageCode else None |}.

(** Lines 147-209: normalise the result and save the transcript segments. *)
Definition saveSegments (meetingId : string) (diarize : bool) (result : Payload.t) : M unit :=
  let words := wordsOf result in
  if (0 <? length words)%nat && diarize then
    let segments := SegmentBuilder.buildSegments meetingId words in
    when (0 <? length segments)%nat (write (InsertSegments segments))
  else if truthy (Payload.text result) then
    write (InsertSegments [textSegment meetingId result (nullish (Payload.text result) "")])
  else ret tt.

(** The writes of [saveSegments]. *)
Definition segmentWrites (meetingId : string) (diarize : bool) (result : Payload.t)
    : list Write :=
  let words := wordsOf result in
  if (0 <? length words)%nat && diarize then
    let segments := SegmentBuilder.buildSegments meetingId words in
    if (0 <? length segments)%nat then [InsertSegments segments] else []
  else if truthy (Payload.text result) then
    [InsertSegments [textSegment meetingId result (nullish (Payload.text result) "")]]
  else [].

(** The body of the [try] block. *)
Definition body (env : Env) (req : Request) : M Response :=
  authHeader <- orExit (if truthy (authorization req) then authorization req else None)
                  (Returned (mkResponse 401 (Error "Missing Authorization header")));;
  user <- orExit (getUser env (replace authHeader "Bearer " ""))
            (Returned (mkResponse 401 (Error "Unauthorized")));;
  params <- orExit (json req) (Thrown "Unexpected end of JSON input");;
  let meetingId := meetingId params in
  let options := options params in
  found <- select (selectMeeting meetingId user);;
  meeting <- orExit found (Returned (mkResponse 404 (Error "Meeting not found")));;
  settings <- select Db.app_settings;;
  elevenlabsKey <- orExit (if truthy (ELEVENLABS_API_KEY env) then ELEVENLABS_API_KEY env else None)
                     (Returned (mkResponse 500 (Error "ElevenLabs API key not configured")));;
  write (UpdateMeeting meetingId transcribing None);;;
  let jobId := randomUUID env in
  write (InsertJob jobId (Job.mk meetingId "elevenlabs" None running None None));;;
  let signed := createSignedUrl env (Meeting.media_path meeting) in
  signedUrl <-
    (if truthy signed then ret (nullish signed "")
     else
       write (UpdateJob jobId (Job.mkPatch failed (Some "Could not create signed URL") None None));;;
       write (UpdateMeeting meetingId meeting_failed None);;;
       throw "Could not create signed URL for media file");;
  let diarize := effectiveDiarize options settings in
  elevenLabsResponse <- orExit (fetch env (formData signedUrl options settings))
                          (Thrown "fetch failed");;
  (if negb (ok elevenLabsResponse) then
     let errorText := f_text elevenLabsResponse in
     write (UpdateJob jobId
              (Job.mkPatch failed
                 (Some (String_of_Z (f_status elevenLabsResponse) +:+ ": " +:+ errorText))
                 None None));;;
     write (UpdateMeeting meetingId meeting_failed None);;;
     return_ (mkResponse 500 (Error ("ElevenLabs API error: " +:+ errorText)))
   else ret tt);;;
  result <- orExit (f_json elevenLabsResponse) (Thrown "Unexpected token in JSON");;
  write (UpdateJob jobId (Job.mkPatch completed None (Some result) (Some jobId)));;;
  saveSegments meetingId diarize result;;;
  write (UpdateMeeting meetingId ready (Some (roundedDuration result)));;;
  ret (mkResponse 200 (Transcription jobId jobId "completed")).

(** The handler: the [OPTIONS] shortcut, then the [try] block; whatever the
    block throws is answered with status 500 and the error's message. *)
Definition serve (env : Env) (req : Request) (d : Db.t) : Response * World :=
  if String.eqb (method req) "OPTIONS" then (mkResponse 200 Null, mkWorld d [])
  else match body env req (mkWorld d []) with
       | (inl r, w) => (r, w)
       | (inr (Returned r), w) => (r, w)
       | (inr (Thrown message), w) => (mkResponse 500 (Error message), w)
       end.

(** Whether the [try] block ended by a [return] or by a [throw]. *)
Definition outcome (env : Env) (req : Request) (d : Db.t) : Response + string :=
  match body env req (mkWorld d []) with
  | (inl r, _) => inl r
  | (inr (Returned r), _) => inl r
  | (inr (Thrown message), _) => inr message
  end.

End StartTranscription.

(** ** The webhook callback handler *)

Module Webhook.
Import Js Http Handler Finalize.

(** The query parameters [secret] and [job_id] of the URL, and the body. *)
Record Request := mkRequest {
  secret : option string;
  job_id : option string;
  json : option Payload.t
}.

Record Env := mkEnv { WEBHOOK_SECRET : option string }.

(** [expectedSecret && secret !== expectedSecret] *)
Definition secretRefused (expectedSecret secret : option string) : bool :=
  truthy expectedSecret &&
  match expectedSecret, secret with
  | Some e, Some s => negb (String.eqb s e)
  | _, _ => true
  end.

(** [payload.status === 'failed' || payload.error] *)
Definition reportsFailure (payload : Payload.t) : bool :=
  match Payload.status payload with
  | Some s => String.eqb s "failed"
  | None => false
  end || truthy (Payload.error payload).

(** Lines 58-110: parse and normalise the segments. *)
Definition saveSegments (meetingId : string) (payload : Payload.t) : M unit :=
  let words := wordsOf payload in
  when (0 <? length words)%nat
    (let segments := SegmentBuilder.buildSegments meetingId words in
     when (0 <? length segments)%nat (write (InsertSegments segments))).

(** The writes of [saveSegments]. *)
Definition segmentWrites (meetingId : string) (payload : Payload.t) : list Write :=
  let segments := SegmentBuilder.buildSegments meetingId (wordsOf payload) in
  if (0 <? length segments)%nat then [InsertSegments segments] else [].


(** The body of the [try] block.  The payload read from the request has the
    shape the provider documents ([Payload.t]): the words are objects whose
    [speaker_id] and [text] are strings or absent.  A body of another shape (a
    numeric [speaker_id], a [null] among the words) makes the source throw
    inside the segment loop, after the job has been written completed; such
    bodies are not covered here, where [json req = None] stands for a body
    that [req.json()] cannot read. *)
Definition body (env : Env) (req : Request) : M Response :=
  let expectedSecret := WEBHOOK_SECRET env in
  (if secretRefused expectedSecret (secret req)
   then return_ (mkResponse 403 (Text "Forbidden")) else ret tt);;;
  jobId <- orExit (if truthy (job_id req) then job_id req else None)
             (Returned (mkResponse 400 (Text "Missing job_id")));;
  payload <- orExit (json req) (Thrown "Unexpected end of JSON input");;
  found <- select (fun d => Db.transcription_jobs d !! jobId);;
  job <- orExit found (Returned (mkResponse 404 (Text "Job not found")));;
  let meetingId := Job.meeting_id job in
  (if reportsFailure payload then
     write (UpdateJob jobId
              (Job.mkPatch failed (Some (or_else (Payload.error payload) "Unknown error"))
                 (Some payload) None));;;
     write (UpdateMeeting meetingId meeting_failed None);;;
     return_ (mkResponse 200 (Text "OK"))
   else ret tt);;;
  write (UpdateJob jobId (Job.mkPatch completed None (Some payload) None));;;
  saveSegments meetingId payload;;;
  write (UpdateMeeting meetingId ready (Some (roundedDuration payload)));;;
  ret (mkResponse 200 (Text "OK")).

(** The handler: whatever the block throws is answered with status 500. *)
Definition serve (env : Env) (req : Request) (d : Db.t) : Response * World :=
  match body env req (mkWorld d []) with
  | (inl r, w) => (r, w)
  | (inr (Returned r), w) => (r, w)
  | (inr (Thrown _), w) => (mkResponse 500 (Text "Internal error"), w)
  end.


End Webhook.

(** ** The summary generator *)

Module GenerateSummary.
Import Js Http Handler.

Record Params := mkParams {
  meetingId : string;
  templateId : option string;
  modelId : option string;
  userInstructions : option string;
  forceNewVersion : option bool
}.

Record Request := mkRequest {
  method : string;
  authorization : option string;
  json : option Params
}.

(** The body posted to the text-generation provider. *)
Record Chat := mkChat {
  model : string;
  temperature : Q;
  max_tokens : Z;
  system_content : string;
  user_content : string
}.

Record Env := mkEnv {
  OPENROUTER_API_KEY : option string;
  getUser : string -> option string;
  randomUUID : string;
  fetch : Chat -> option (Fetched LlmResult.t)
}.

(** [eq('id', meetingId).eq('owner_id', user.id).eq('status', 'ready').single()] *)
Definition selectMeeting (meetingId user : string) (d : Db.t) : option Meeting.t :=
  match Db.meetings d !! meetingId with
  | Some m =>
      if String.eqb (Meeting.owner_id m) user
         && match Meeting.status m with ready => true | _ => false end
      then Some m else None
  | None => None
  end.

(** The template with the given id, else the one row flagged as default
    ([single()] gives nothing unless there is exactly one). *)
Definition selectTemplate (templateId : option string) (d : Db.t)
    : option (string * Template.t) :=
  if truthy templateId then
    let id := nullish templateId "" in
    (fun t => (id, t)) <$> Db.summary_templates d !! id
  else
    match filter (fun r => Template.is_default r.2 = true)
                 (map_to_list (Db.summary_templates d)) with
    | [r] => Some r
    | _ => None
    end.

(** [eq('meeting_id', meetingId).order('start_ms', { ascending: true })] *)
Definition selectSegments (meetingId : string) (d : Db.t) : list Segment.t :=
  Db.orderBy (fun a b => Segment.start_ms a <=? Segment.start_ms b)%Z
    (filter (fun s => Segment.meeting_id s = meetingId) (map snd (Db.transcript_segments d))).

(** [formatTime]: [Math.floor] of a quotient is [Z.div], and [%] keeps the sign
    of the dividend as [Z.rem] does. *)
Definition formatTime (ms : Z) : string :=
  let totalSec := ms / 1000 in
  let m := totalSec / 60 in
  let s := Z.rem totalSec 60 in
  String_of_Z m +:+ ":" +:+ padStart 2 "0" (String_of_Z s).

Definition newline : string := String (ascii_of_nat 10) EmptyString.

Definition transcriptText (segments : list Segment.t) : string :=
  join newline
    (map (fun s => "[" +:+ formatTime (Segment.start_ms s) +:+ "] "
                   +:+ Segment.speaker_label s +:+ ": " +:+ Segment.text s) segments).

(** Lines 122-124: the user prompt sent to the provider. *)
Definition userPrompt (user_prompt transcriptText : string) (userInstructions : option string)
    : string :=
  replace (replace user_prompt "{{TRANSCRIPT}}" transcriptText)
          "{{INSTRUCTIONS}}" (or_else userInstructions "None").

(** [eq('meeting_id', meetingId).order('version', { ascending: false }).limit(1)] *)
Definition existingSummaries (meetingId : string) (d : Db.t) : list Summary.t :=
  firstn 1 (Db.orderBy (fun a b => Summary.version b <=? Summary.version a)%Z
              (filter (fun s => Summary.meeting_id s = meetingId) (Db.summaries d))).

(** [(existingSummaries?.[0]?.version ?? 0) + 1] *)
Definition nextVersion (existing : list Summary.t) : Z :=
  nullish (Summary.version <$> head existing) 0 + 1.

(** The body of the [try] block. *)
Definition body (env : Env) (req : Request) : M Response :=
  authHeader <- orExit (authorization req)
                  (Thrown "Cannot read properties of null (reading 'replace')");;
  user <- orExit (getUser env (replace authHeader "Bearer " ""))
            (Returned (mkResponse 401 (Error "Unauthorized")));;
  params <- orExit (json req) (Thrown "Unexpected end of JSON input");;
  let meetingId := meetingId params in
  foundMeeting <- select (selectMeeting meetingId user);;
  meeting <- orExit foundMeeting
               (Returned (mkResponse 404 (Error "Meeting not found or not ready")));;
  settings <- select Db.app_settings;;
  foundTemplate <- select (selectTemplate (templateId params));;
  template <- orExit foundTemplate
                (Returned (mkResponse 400 (Error "No summary template found")));;
  segments <- select (selectSegments meetingId);;
  (if (length segments =? 0)%nat
   then return_ (mkResponse 400 (Error "No transcript segments found")) else ret tt);;;
  let systemPrompt := Template.system_prompt template.2 in
  let userPrompt :=
    userPrompt (Template.user_prompt template.2) (transcriptText segments)
               (userInstructions params) in
  openrouterKey <- orExit (if truthy (OPENROUTER_API_KEY env) then OPENROUTER_API_KEY env else None)
                     (Returned (mkResponse 500 (Error "OpenRouter API key not configured")));;
  let model :=
    or_else (modelId params)
      (or_else (settings ≫= Settings.openrouter_default_model)
               "anthropic/claude-sonnet-4-5-20250929") in
  let temperature := nullish (Settings.openrouter_temperature <$> settings) (2 # 10)%Q in
  let maxTokens := nullish (Settings.openrouter_max_tokens <$> settings) 1200 in
  openrouterResponse <-
    orExit (fetch env (mkChat model temperature maxTokens systemPrompt userPrompt))
           (Thrown "fetch failed");;
  (if negb (ok openrouterResponse)
   then return_ (mkResponse 500 (Error ("OpenRouter error: " +:+ f_text openrouterResponse)))
   else ret tt);;;
  llmResult <- orExit (f_json openrouterResponse) (Thrown "Unexpected token in JSON");;
  let contentMd := or_else (LlmResult.content llmResult) "" in
  existing <- select (existingSummaries meetingId);;
  let nextVersion := nextVersion existing in
  let summaryId := randomUUID env in
  write (InsertSummary
           (Summary.mk summaryId meetingId nextVersion template.1 model contentMd llmResult));;;
  ret (mkResponse 200 (SummaryCreated summaryId nextVersion contentMd)).

Definition serve (env : Env) (req : Request) (d : Db.t) : Response * World :=
  if String.eqb (method req) "OPTIONS" then (mkResponse 200 Null, mkWorld d [])
  else match body env req (mkWorld d []) with
       | (inl r, w) => (r, w)
       | (inr (Returned r), w) => (r, w)
       | (inr (Thrown message), w) => (mkResponse 500 (Error message), w)
       end.

End GenerateSummary.

(** ** The properties the specification asks for *)

(** The job state machine of the specification:
    queued -> running -> completed | failed. *)
Module JobStateMachine.








End JobStateMachine.

(** The steps of a job's lifecycle, in the order the code takes them. *)
Module Lifecycle.








End Lifecycle.

Module Properties.
Import Js.

(** The words read back from the segments: their texts, put one after the
    other with a space between two segments, split at the spaces. *)
Definition coveredWords (segments : list Segment.t) : list string :=
  split " " (join " " (map Segment.text segments)).

(** [s] contains [sub]. *)
Definition Contains (s sub : string) : Prop := exists a b, s = a +:+ sub +:+ b.

(** [pat] occurs in [s] after [a] and before [b], and nowhere earlier. *)
Definition FirstOccurrence (pat s a b : string) : Prop :=
  s = a +:+ pat +:+ b /\
  forall a' b', s = a' +:+ pat +:+ b' -> (String.length a <= String.length a')%nat.

(** [out] is [s] with the first occurrence of [pat], if there is one,
    replaced by the expansion of [repl] (by [repl] itself when it has no
    dollar sign); the text before and the text after are kept as they are. *)
Definition FirstSubstituted (pat s repl out : string) : Prop :=
  (~ Contains s pat /\ out = s) \/
  (exists a b, FirstOccurrence pat s a b /\
               out = a +:+ getSubstitution pat a b repl +:+ b /\
               (lacks "$" repl = true -> out = a +:+ repl +:+ b)).

(** The reading of the specification for the prompt: the first
    [{{TRANSCRIPT}}] and the first [{{INSTRUCTIONS}}] of the template are
    replaced, in one pass over the template.  [skip] counts the characters
    of a placeholder still to pass over. *)
Fixpoint substituteFirsts (transcript instructions : string)
    (doneT doneI : bool) (skip : nat) (template : string) : string :=
  match template with
  | EmptyString => EmptyString
  | String c rest =>
      match skip with
      | S k => substituteFirsts transcript instructions doneT doneI k rest
      | O =>
          if negb doneT && String.prefix "{{TRANSCRIPT}}" template then
            transcript +:+ substituteFirsts transcript instructions true doneI 13 rest
          else if negb doneI && String.prefix "{{INSTRUCTIONS}}" template then
            instructions +:+ substituteFirsts transcript instructions doneT true 15 rest
          else String c (substituteFirsts transcript instructions doneT doneI 0 rest)
      end
  end.


End Properties.

(** ** Concrete inputs *)

Module Scenario.

(** One speaker says "hi there"; the provider reports the space between the
    two words as a word of its own, as its word-level output does. *)
Definition spacedWords : list Word.t :=
  [ Word.mk (Some "A") (Some 0%Q) (Some (1 # 2)%Q) (Some "hi");
    Word.mk (Some "A") (Some (1 # 2)%Q) (Some (1 # 2)%Q) (Some " ");
    Word.mk (Some "A") (Some (1 # 2)%Q) (Some (9 # 10)%Q) (Some "there") ].

(** A recording being transcribed, with its running job. *)
Definition tables : Db.t :=
  {| Db.meetings := {[ "m1" := Meeting.mk "u1" "u1/talk.mp3" None transcribing ]};
     Db.transcription_jobs := {[ "j1" := Job.mk "m1" "elevenlabs" None running None None ]};
     Db.transcript_segments := [];
     Db.next_id := 0;
     Db.summaries := [];
     Db.summary_templates := ∅;
     Db.app_settings := None |}.

Definition webhookEnv : Webhook.Env := Webhook.mkEnv (Some "s3cret").

(** A successful result with one word. *)
Definition oneWord : Payload.t :=
  Payload.mk None None
    (Some [Word.mk (Some "A") (Some 0%Q) (Some (1 # 2)%Q) (Some "hi")]) None (Some 1%Q).

Definition callback (payload : Payload.t) : Webhook.Request :=
  Webhook.mkRequest (Some "s3cret") (Some "j1") (Some payload).

(** A result without word-level data but with a plain text: scenario B of
    the specification. *)
Definition plainText : Payload.t :=
  Payload.mk None None (Some []) (Some "hello world") (Some 2%Q).



(** A callback with the right secret and no job id. *)
Definition callbackWithoutJob : Webhook.Request :=
  Webhook.mkRequest (Some "s3cret") None (Some oneWord).

(** A callback with a wrong secret, and one for a job that does not exist. *)
Definition callbackWithWrongSecret : Webhook.Request :=
  Webhook.mkRequest (Some "guess") (Some "j1") (Some oneWord).

Definition callbackForUnknownJob : Webhook.Request :=
  Webhook.mkRequest (Some "s3cret") (Some "j9") (Some oneWord).

(** A result with word-level data of two speakers and a plain text. *)
Definition wordsAndText : Payload.t :=
  Payload.mk None None (Some SegmentBuilder.scenarioA) (Some "hi there hello")
    (Some (14 # 10)%Q).

(** A request to transcribe the recording [m1], by its owner; the provider
    answers [answer]. *)
Definition submit : StartTranscription.Request :=
  StartTranscription.mkRequest "POST" (Some "Bearer token")
    (Some (StartTranscription.mkParams "m1" None)).

Definition submitEnv (answer : Http.Fetched Payload.t) : StartTranscription.Env :=
  {| StartTranscription.ELEVENLABS_API_KEY := Some "key";
     StartTranscription.getUser := fun _ => Some "u1";
     StartTranscription.randomUUID := "j2";
     StartTranscription.createSignedUrl := fun _ => Some "https://storage/u1/talk.mp3";
     StartTranscription.fetch := fun _ => Some answer |}.

Definition answered (result : Payload.t) : Http.Fetched Payload.t :=
  Http.mkFetched 200 "{}" (Some result).

(** The same request with diarization switched off. *)
Definition submitWithoutDiarization : StartTranscription.Request :=
  StartTranscription.mkRequest "POST" (Some "Bearer token")
    (Some (StartTranscription.mkParams "m1"
             (Some (StartTranscription.mkOptions None (Some false) None None)))).

(** The provider answers with status 500. *)
Definition refused : Http.Fetched Payload.t :=
  Http.mkFetched 500 "internal provider error" None.

(** A prompt template with both placeholders, and the transcript of a
    recording whose speaker has been renamed to the text of a placeholder. *)
Definition promptTemplate : string := "Transcript: {{TRANSCRIPT}} Notes: {{INSTRUCTIONS}}".

Definition renamedSpeaker : list Segment.t :=
  [ Segment.mk "m1" "A" "{{INSTRUCTIONS}}" 0 500 "hi" ].


Definition summarize : GenerateSummary.Request :=
  GenerateSummary.mkRequest "POST" (Some "Bearer token")
    (Some (GenerateSummary.mkParams "m1" None None None None)).

Definition summaryEnv : GenerateSummary.Env :=
  {| GenerateSummary.OPENROUTER_API_KEY := Some "key";
     GenerateSummary.getUser := fun _ => Some "u1";
     GenerateSummary.randomUUID := "s3";
     GenerateSummary.fetch :=
       fun _ => Some (Http.mkFetched 200 "{}" (Some (LlmResult.mk (Some "third")))) |}.

(** The storage service gives no signed URL. *)
Definition submitEnvWithoutUrl : StartTranscription.Env :=
  {| StartTranscription.ELEVENLABS_API_KEY := Some "key";
     StartTranscription.getUser := fun _ => Some "u1";
     StartTranscription.randomUUID := "j2";
     StartTranscription.createSignedUrl := fun _ => None;
     StartTranscription.fetch := fun _ => Some (answered oneWord) |}.

(** The provider cannot be reached. *)
Definition submitEnvOffline : StartTranscription.Env :=
  {| StartTranscription.ELEVENLABS_API_KEY := Some "key";
     StartTranscription.getUser := fun _ => Some "u1";
     StartTranscription.randomUUID := "j2";
     StartTranscription.createSignedUrl := fun _ => Some "https://storage/u1/talk.mp3";
     StartTranscription.fetch := fun _ => None |}.

(** A ready recording without segments, and the default template. *)
Definition readyWithoutSegments : Db.t :=
  {| Db.meetings := {[ "m1" := Meeting.mk "u1" "u1/talk.mp3" (Some 1) ready ]};
     Db.transcription_jobs := ∅;
     Db.transcript_segments := [];
     Db.next_id := 0;
     Db.summaries := [];
     Db.summary_templates := {[ "t1" := Template.mk "You summarise." promptTemplate true ]};
     Db.app_settings := None |}.


(** The recording [m1] of the tables. *)
Definition talk : Meeting.t := Meeting.mk "u1" "u1/talk.mp3" None transcribing.

End Scenario.

(** ** Further measures of a word list and of the segments built from it *)

Module Timeline.

(** The number of places where the speaker changes from a word to the next. *)
Fixpoint speakerChanges (ws : list Word.t) : nat :=
  match ws with
  | w :: (w' :: _) as rest =>
      (if String.eqb (SegmentBuilder.speaker w) (SegmentBuilder.speaker w') then 0 else 1)
      + speakerChanges rest
  | _ => 0
  end%nat.

(** The times of the words as the loop reads them ([word.start ?? 0],
    [word.end ?? 0]), in seconds, one word after the other. *)
Definition wordTimes (ws : list Word.t) : list Q :=
  flat_map (fun w => [Js.nullish (Word.start w) 0%Q; Js.nullish (Word.end_ w) 0%Q]) ws.

(** The bounds of the segments in milliseconds, one segment after the other. *)
Definition segmentTimes (segments : list Segment.t) : list Z :=
  flat_map (fun s => [Segment.start_ms s; Segment.end_ms s]) segments.

End Timeline.

(** ** What a run may touch *)

Module Frame.

(** The write [w] concerns the recording [meetingId] and the job [jobId]
    only. *)
Definition within (meetingId jobId : string) (w : Write) : Prop :=
  match w with
  | UpdateMeeting id _ _ => id = meetingId
  | InsertJob id row => id = jobId /\ Job.meeting_id row = meetingId
  | UpdateJob id _ => id = jobId
  | InsertSegments rows => Forall (fun r => Segment.meeting_id r = meetingId) rows
  | InsertSummary _ => False
  end.

(** The tables [d'] differ from [d] at most in the recording [meetingId], in
    the job [jobId] and in segment rows of that recording added after the
    rows of [d]; no recording has appeared or gone. *)
Definition agreeOutside (meetingId jobId : string) (d d' : Db.t) : Prop :=
  (forall k, k <> meetingId -> Db.meetings d' !! k = Db.meetings d !! k)
  /\ (forall k, is_Some (Db.meetings d' !! k) <-> is_Some (Db.meetings d !! k))
  /\ (forall k, k <> jobId -> Db.transcription_jobs d' !! k = Db.transcription_jobs d !! k)
  /\ (exists new,
        Db.transcript_segments d' = Db.transcript_segments d ++ new
        /\ Forall (fun r => Segment.meeting_id r.2 = meetingId) new)
  /\ Db.summaries d' = Db.summaries d
  /\ Db.summary_templates d' = Db.summary_templates d
  /\ Db.app_settings d' = Db.app_settings d.

End Frame.

(** ** The checks a request passes before anything is written *)

Module Accepted.

(** [start_transcription]: the caller is authenticated as [user], the body
    is read as [params], the recording is [meeting] and belongs to [user],
    and the provider key is set. *)
Definition start (env : StartTranscription.Env) (req : StartTranscription.Request)
    (d : Db.t) (user : string) (params : StartTranscription.Params) (meeting : Meeting.t)
    : Prop :=
  String.eqb (StartTranscription.method req) "OPTIONS" = false
  /\ Js.truthy (StartTranscription.authorization req) = true
  /\ StartTranscription.getUser env
       (Js.replace (Js.nullish (StartTranscription.authorization req) "") "Bearer " "")
     = Some user
  /\ StartTranscription.json req = Some params
  /\ StartTranscription.selectMeeting (StartTranscription.meetingId params) user d
     = Some meeting
  /\ Js.truthy (StartTranscription.ELEVENLABS_API_KEY env) = true.

(** The first two writes of every accepted run. *)
Definition opening (env : StartTranscription.Env) (params : StartTranscription.Params)
    : list Write :=
  [ UpdateMeeting (StartTranscription.meetingId params) transcribing None;
    InsertJob (StartTranscription.randomUUID env)
      (Job.mk (StartTranscription.meetingId params) "elevenlabs" None running None None) ].

(** The webhook: the secret is not refused, the job id is [jobId], the body
    is read as [payload] and the job exists as [job]. *)
Definition callback (env : Webhook.Env) (req : Webhook.Request) (d : Db.t)
    (jobId : string) (payload : Payload.t) (job : Job.t) : Prop :=
  Webhook.secretRefused (Webhook.WEBHOOK_SECRET env) (Webhook.secret req) = false
  /\ Webhook.job_id req = Some jobId /\ jobId <> ""
  /\ Webhook.json req = Some payload
  /\ Db.transcription_jobs d !! jobId = Some job.

End Accepted.

(** ** The rows a result is saved as *)

Module Saved.

(** The segment rows [start_transcription] inserts for a result. *)
Definition rows (meetingId : string) (diarize : bool) (result : Payload.t) : list Segment.t :=
  let words := Finalize.wordsOf result in
  if (0 <? length words)%nat && diarize then SegmentBuilder.buildSegments meetingId words
  else if Js.truthy (Payload.text result) then
    [Finalize.textSegment meetingId result (Js.nullish (Payload.text result) "")]
  else [].


End Saved.

(** ** The request sent to the text-generation provider *)

Module Prompt.

(** The chat body the summary generator posts for a request, a template,
    the settings and the segments of the recording. *)
Definition chat (params : GenerateSummary.Params) (template : Template.t)
    (settings : option Settings.t) (segments : list Segment.t) : GenerateSummary.Chat :=
  GenerateSummary.mkChat
    (Js.or_else (GenerateSummary.modelId params)
       (Js.or_else (settings ≫= Settings.openrouter_default_model)
          "anthropic/claude-sonnet-4-5-20250929"))
    (Js.nullish (Settings.openrouter_temperature <$> settings) (2 # 10)%Q)
    (Js.nullish (Settings.openrouter_max_tokens <$> settings) 1200)
    (Template.system_prompt template)
    (GenerateSummary.userPrompt (Template.user_prompt template)
       (GenerateSummary.transcriptText segments) (GenerateSummary.userInstructions params)).

(** The checks of the summary generator up to the call of the provider: the
    caller is authenticated as [user], the recording belongs to [user] and is
    ready, a template is found, the recording has segments and the provider
    key is set. *)
Definition accepted (env : GenerateSummary.Env) (req : GenerateSummary.Request) (d : Db.t)
    (user : string) (params : GenerateSummary.Params) (meeting : Meeting.t)
    (template : string * Template.t) : Prop :=
  String.eqb (GenerateSummary.method req) "OPTIONS" = false
  /\ (exists header,
        GenerateSummary.authorization req = Some header
        /\ GenerateSummary.getUser env (Js.replace header "Bearer " "") = Some user)
  /\ GenerateSummary.json req = Some params
  /\ GenerateSummary.selectMeeting (GenerateSummary.meetingId params) user d = Some meeting
  /\ GenerateSummary.selectTemplate (GenerateSummary.templateId params) d = Some template
  /\ GenerateSummary.selectSegments (GenerateSummary.meetingId params) d <> []
  /\ Js.truthy (GenerateSummary.OPENROUTER_API_KEY env) = true.

End Prompt.

(** ** Times as the pages and prompts print them *)

Module Clock.

(** The decimal digit [n], for [n] below ten. *)
Definition digit (n : Z) : ascii := ascii_of_nat (48 + Z.to_nat n).

(** A number below one hundred in two digits. *)
Definition twoDigits (n : Z) : string :=
  String (digit (n / 10)) (String (digit (n mod 10)) EmptyString).

End Clock.

(** ** [supabase/functions/create_upload_url/index.ts]: the storage path *)

Module Upload.

(** [s.includes(c)] for a character [c]. *)
Definition includes (c : ascii) (s : string) : bool := negb (Js.lacks c s).

(** [s.lastIndexOf(c)]: the index of the last [c] in [s], -1 when there is
    none. *)
Fixpoint lastIndexOf (c : ascii) (s : string) : Z :=
  match s with
  | EmptyString => (-1)%Z
  | String d s' =>
      let i := lastIndexOf c s' in
      if (0 <=? i)%Z then (i + 1)%Z else if Ascii.eqb d c then 0%Z else (-1)%Z
  end.

(** [s.slice(start)]: a negative [start] counts from the end. *)
Definition slice (start : Z) (s : string) : string :=
  let len := Z.of_nat (String.length s) in
  let from := if (start <? 0)%Z then Z.max (len + start) 0 else Z.min start len in
  Js.drop_chars (Z.to_nat from) s.

(** Lines 67-69. *)
Definition ext (filename : string) : string :=
  if includes "." filename then slice (lastIndexOf "." filename) filename else "".

Definition safeFilename (filename : string) : string := "recording" +:+ ext filename.

Definition storagePath (userId meetingId filename : string) : string :=
  userId +:+ "/" +:+ meetingId +:+ "/original/" +:+ safeFilename filename.

End Upload.

(** ** [supabase/functions/send_email/index.ts]: the summary that is sent *)

Module SendEmail.

(** [eq('meeting_id', meetingId).order('version', { ascending: false })
    .limit(1).single()] *)
Definition latestSummary (meetingId : string) (d : Db.t) : option Summary.t :=
  head (firstn 1 (Db.orderBy (fun a b => Summary.version b <=? Summary.version a)%Z
                    (filter (fun s => Summary.meeting_id s = meetingId) (Db.summaries d)))).

End SendEmail.

(** ** Times on the pages *)

Module Pages.

(** [formatDuration] of the dashboard: [seconds] is the stored duration. *)
Definition formatDuration (seconds : option Z) : string :=
  match seconds with
  | Some s =>
      if (s =? 0)%Z then "-"
      else Js.String_of_Z (s / 60)%Z +:+ ":" +:+ Js.padStart 2 "0" (Js.String_of_Z (Z.rem s 60))
  | None => "-"
  end.

(** [formatTime] of the recording dialog: [s] counts the seconds recorded. *)
Definition formatTime (s : Z) : string :=
  Js.padStart 2 "0" (Js.String_of_Z (s / 60)%Z) +:+ ":"
  +:+ Js.padStart 2 "0" (Js.String_of_Z (Z.rem s 60)).

End Pages.

(** ** Proof tools *)

Arguments Db.apply : simpl never.

(** Unfold the monad of a handler body. *)
Ltac run_handler :=
  repeat progress
    (unfold Handler.bind, Handler.orExit, Handler.select, Handler.write, Handler.ret,
       Handler.return_, Handler.when, Handler.throw in *; simpl in * ).

(** Take every branch of the handler under the goal. *)
Ltac all_branches := repeat (case_match; run_handler; simplify_eq).

(** * Proofs *)

(** ** Strings *)

Section StringFacts.
Import Js.

Lemma append_cons (x : ascii) (a b : string) : String x a +:+ b = String x (a +:+ b).
Proof. reflexivity. Qed.

Lemma append_nil_l (b : string) : "" +:+ b = b.
Proof. reflexivity. Qed.

Lemma append_assoc (a b c : string) : (a +:+ b) +:+ c = a +:+ (b +:+ c).
Proof.
  induction a as [|x a IH]; [reflexivity|].
  now rewrite !append_cons, IH.
Qed.

Lemma append_nil_r (a : string) : a +:+ "" = a.
Proof.
  induction a as [|x a IH]; [reflexivity|].
  now rewrite append_cons, IH.
Qed.

Lemma length_append (a b : string) :
  String.length (a +:+ b) = (String.length a + String.length b)%nat.
Proof.
  induction a as [|x a IH]; [reflexivity|].
  rewrite append_cons. simpl. now rewrite IH.
Qed.

(** Splitting a text without [c] that is followed by [c]. *)
Lemma split_append_sep (c : ascii) (x rest : string) :
  lacks c x = true -> split c (x +:+ String c rest) = x :: split c rest.
Proof.
  induction x as [|d x IH]; intros H.
  - rewrite append_nil_l. simpl. now rewrite Ascii.eqb_refl.
  - simpl in H. apply andb_prop in H as [Hd Hx].
    apply negb_true_iff in Hd. rewrite append_cons. simpl.
    rewrite Hd, (IH Hx). reflexivity.
Qed.

Lemma split_lacks (c : ascii) (x : string) : lacks c x = true -> split c x = [x].
Proof.
  induction x as [|d x IH]; simpl; intros H; [reflexivity|].
  apply andb_prop in H as [Hd Hx].
  apply negb_true_iff in Hd. rewrite Hd, (IH Hx). reflexivity.
Qed.

Lemma join_cons (sep x : string) (l : list string) :
  l <> [] -> join sep (x :: l) = x +:+ sep +:+ join sep l.
Proof. destruct l; [congruence | reflexivity]. Qed.

Lemma join_app (sep : string) (l1 l2 : list string) :
  l1 <> [] -> l2 <> [] ->
  join sep (l1 ++ l2) = join sep l1 +:+ sep +:+ join sep l2.
Proof.
  intros H1 H2. induction l1 as [|x l1 IH]; [congruence|].
  destruct l1 as [|y l1].
  - simpl app. now rewrite join_cons.
  - change ((x :: y :: l1) ++ l2) with (x :: (y :: l1) ++ l2).
    rewrite join_cons by (simpl; congruence).
    rewrite IH by congruence.
    rewrite (join_cons sep x (y :: l1)) by congruence.
    now rewrite !append_assoc.
Qed.

(** Joining the joined parts is joining the whole, when no part is empty. *)
Lemma join_concat (sep : string) (ls : list (list string)) :
  Forall (fun l => l <> []) ls ->
  join sep (map (join sep) ls) = join sep (concat ls).
Proof.
  induction 1 as [|l ls Hl Hls IH]; [reflexivity|].
  destruct ls as [|l' ls].
  - simpl. now rewrite app_nil_r.
  - change (map (join sep) (l :: l' :: ls))
      with (join sep l :: map (join sep) (l' :: ls)).
    rewrite join_cons by (simpl; congruence). rewrite IH.
    change (concat (l :: l' :: ls)) with (l ++ concat (l' :: ls)).
    rewrite join_app; [reflexivity | assumption |].
    inversion Hls; subst. destruct l'; [congruence | simpl; congruence].
Qed.

(** [split] undoes [join] on words without the separator. *)
Lemma split_join (c : ascii) (l : list string) :
  l <> [] -> Forall (fun x => lacks c x = true) l ->
  split c (join (String c "") l) = l.
Proof.
  intros Hne Hall. induction Hall as [|x l Hx Hl IH]; [congruence|].
  destruct l as [|y l].
  - simpl. now apply split_lacks.
  - rewrite join_cons by congruence.
    rewrite append_cons, append_nil_l.
    rewrite split_append_sep by assumption.
    now rewrite IH by congruence.
Qed.

End StringFacts.

(** ** The segment-building loop *)

Section SegmentBuilderFacts.
Import Js SegmentBuilder.

Lemma speakerRuns_head (w : Word.t) (ws : list Word.t) :
  exists r rs, speakerRuns (w :: ws) = (w :: r) :: rs.
Proof.
  simpl. destruct (speakerRuns ws) as [|[|w' r] rs]; eauto.
  destruct (String.eqb _ _); eauto.
Qed.

(** A run of one speaker is its own single run. *)
Lemma speakerRuns_uniform (s : string) (cur : list Word.t) :
  cur <> [] -> runOf s cur -> speakerRuns cur = [cur].
Proof.
  intros Hne Hrun. induction Hrun as [|w cur Hw Hcur IH]; [congruence|].
  destruct cur as [|w2 cur]; [reflexivity|].
  simpl. simpl in IH. rewrite IH by congruence.
  inversion Hcur as [|? ? Hw2 _]; subst.
  rewrite Hw2. now rewrite String.eqb_refl.
Qed.

(** A run of one speaker followed by a word of another speaker is closed at
    that word. *)
Lemma speakerRuns_break (s : string) (cur : list Word.t) (w : Word.t) (ws : list Word.t) :
  cur <> [] -> runOf s cur -> speaker w <> s ->
  speakerRuns (cur ++ w :: ws) = cur :: speakerRuns (w :: ws).
Proof.
  intros Hne Hrun Hw. induction Hrun as [|c cur Hc Hcur IH]; [congruence|].
  destruct cur as [|c2 cur].
  - destruct (speakerRuns_head w ws) as (r & rs & E).
    change (speakerRuns ([c] ++ w :: ws))
      with (match speakerRuns (w :: ws) with
            | (w' :: r) :: rs =>
                if String.eqb (speaker c) (speaker w') then (c :: w' :: r) :: rs
                else [c] :: (w' :: r) :: rs
            | _ => [[c]]
            end).
    rewrite E. destruct (String.eqb_spec (speaker c) (speaker w)); [congruence | reflexivity].
  - change (speakerRuns ((c :: c2 :: cur) ++ w :: ws))
      with (match speakerRuns ((c2 :: cur) ++ w :: ws) with
            | (w' :: r) :: rs =>
                if String.eqb (speaker c) (speaker w') then (c :: w' :: r) :: rs
                else [c] :: (w' :: r) :: rs
            | _ => [[c]]
            end).
    rewrite IH by congruence.
    inversion Hcur as [|? ? Hc2 _]; subst.
    rewrite Hc2. now rewrite String.eqb_refl.
Qed.

Lemma last_snoc (cur : list Word.t) (w d : Word.t) : List.last (cur ++ [w]) d = w.
Proof. apply List.last_last. Qed.

(** The last element of a list that is not empty does not depend on the default. *)
Lemma last_cons_default (c : Word.t) (cur : list Word.t) (d d' : Word.t) :
  List.last (c :: cur) d = List.last (c :: cur) d'.
Proof.
  revert c. induction cur as [|x cur IH]; intros c; [reflexivity|].
  change (List.last (x :: cur) d = List.last (x :: cur) d'). apply IH.
Qed.

(** The invariant of the loop: with [cur] the words of the open run, the
    segments after the loop are the closed ones followed by those of the runs
    of [cur] and the words still to come. *)
Lemma loop_runs (meetingId : string) (ws cur : list Word.t) (st : Loop) (d : Word.t) :
  cur <> [] ->
  runOf (currentSpeaker st) cur ->
  segmentWords st = map wordText cur ->
  segmentStart st = wordStart (hd d cur) ->
  segmentEnd st = wordEnd (List.last cur d) ->
  finish meetingId (fold_left (step meetingId) ws st) =
  segments st ++ map (segmentOfRun meetingId) (speakerRuns (cur ++ ws)).
Proof.
  revert cur st. induction ws as [|w ws IH]; intros cur st Hne Hrun Hwords Hstart Hend.
  - rewrite app_nil_r, (speakerRuns_uniform _ _ Hne Hrun). simpl.
    unfold finish. rewrite Hwords, length_map.
    destruct cur as [|c cur]; [congruence|]. simpl Nat.ltb. cbv iota.
    f_equal. f_equal. unfold closeRun, segmentOfRun.
    inversion Hrun as [|? ? Hc _]; subst. simpl hd in *.
    rewrite Hwords, Hstart, Hend, Hc.
    f_equal. f_equal. apply last_cons_default.
  - simpl fold_left.
    destruct (String.eqb_spec (speaker w) (currentSpeaker st)) as [Heq|Hdiff].
    + replace (cur ++ w :: ws) with ((cur ++ [w]) ++ ws) by (now rewrite <- app_assoc).
      unfold step at 2. rewrite Heq, String.eqb_refl. simpl negb. cbv iota.
      rewrite (IH (cur ++ [w])); simpl.
      * reflexivity.
      * destruct cur; simpl; congruence.
      * apply Forall_app; split; [assumption | now repeat constructor].
      * now rewrite Hwords, map_app.
      * destruct cur; [congruence | simpl; exact Hstart].
      * now rewrite last_snoc.
    + rewrite (speakerRuns_break _ _ _ _ Hne Hrun Hdiff).
      unfold step at 2.
      destruct (String.eqb_spec (speaker w) (currentSpeaker st)); [congruence|].
      simpl negb. cbv iota.
      rewrite (IH [w]); simpl.
      * rewrite <- app_assoc. f_equal. simpl. f_equal.
        unfold closeRun, segmentOfRun.
        destruct cur as [|c cur]; [congruence|].
        inversion Hrun as [|? ? Hc _]; subst. simpl hd in *.
        rewrite Hwords, Hstart, Hend, Hc.
        f_equal. f_equal. apply last_cons_default.
      * congruence.
      * now repeat constructor.
      * reflexivity.
      * reflexivity.
      * reflexivity.
Qed.

(** The loop builds the segments of the maximal same-speaker runs. *)
Lemma buildSegments_runs (meetingId : string) (ws : list Word.t) :
  buildSegments meetingId ws = map (segmentOfRun meetingId) (speakerRuns ws).
Proof.
  destruct ws as [|w0 ws]; [reflexivity|].
  unfold buildSegments. simpl fold_left.
  assert (Hstep : step meetingId (init w0) w0 =
                  mkLoop [] (speaker w0) (wordStart w0) [wordText w0] (wordEnd w0)).
  { unfold step, init. simpl. now rewrite String.eqb_refl. }
  rewrite Hstep.
  rewrite (loop_runs meetingId ws [w0] _ w0); simpl; try reflexivity.
  - congruence.
  - now repeat constructor.
Qed.

(** Every run starts with a word and keeps the speaker of that word. *)
Lemma speakerRuns_uniform_runs (ws : list Word.t) :
  Forall (fun run => exists w rest, run = w :: rest /\ runOf (speaker w) run) (speakerRuns ws).
Proof.
  induction ws as [|w ws IH]; [constructor|].
  simpl. destruct (speakerRuns ws) as [|[|w' r] rs] eqn:E.
  - repeat constructor. exists w, []. split; [reflexivity | now repeat constructor].
  - repeat constructor. exists w, []. split; [reflexivity | now repeat constructor].
  - inversion IH as [|? ? (w1 & rest & Hrun & Hall) Hrs]; subst.
    injection Hrun as -> ->.
    destruct (String.eqb_spec (speaker w) (speaker w1)) as [Heq|Hne].
    + constructor; [|assumption]. exists w, (w1 :: rest). split; [reflexivity|].
      constructor; [reflexivity|]. unfold runOf in *. now rewrite Heq.
    + constructor; [|now constructor; [eauto|]].
      exists w, []. split; [reflexivity | now repeat constructor].
Qed.

Lemma speakerRuns_concat (ws : list Word.t) : concat (speakerRuns ws) = ws.
Proof.
  induction ws as [|w ws IH]; [reflexivity|].
  pose proof (speakerRuns_uniform_runs ws) as Huni.
  simpl. destruct (speakerRuns ws) as [|[|w' r] rs] eqn:E.
  - simpl in IH. now subst.
  - inversion Huni as [|? ? (? & ? & ? & _) _]; discriminate.
  - destruct (String.eqb _ _); simpl in *; now rewrite IH.
Qed.

(** The speaker changes between a run and the next one. *)
Lemma speakerRuns_maximal (ws : list Word.t) (i : nat) (r1 r2 : list Word.t) (w1 w2 : Word.t) :
  speakerRuns ws !! i = Some r1 -> speakerRuns ws !! S i = Some r2 ->
  w1 ∈ r1 -> w2 ∈ r2 -> speaker w1 <> speaker w2.
Proof.
  revert i r1 r2 w1 w2. induction ws as [|w ws IH]; intros i r1 r2 w1 w2; [discriminate|].
  pose proof (speakerRuns_uniform_runs ws) as Huni.
  simpl. destruct (speakerRuns ws) as [|[|w' r] rs] eqn:E.
  - destruct i; discriminate.
  - inversion Huni as [|? ? (? & ? & ? & _) _]; discriminate.
  - inversion Huni as [|? ? (x & rest & Hrun & Hall) Hrs]; subst.
    injection Hrun as -> ->.
    unfold runOf in Hall. rewrite Forall_forall in Hall.
    destruct (String.eqb_spec (speaker w) (speaker x)) as [Heq|Hne].
    + destruct i as [|i]; simpl; intros H1 H2 In1 In2.
      * injection H1 as <-.
        assert (Hs1 : speaker w1 = speaker x).
        { apply elem_of_cons in In1 as [E1 | In1]; [congruence | now apply Hall]. }
        rewrite Hs1.
        assert (Hx : x ∈ x :: rest) by apply list_elem_of_here.
        exact (IH 0%nat (x :: rest) r2 x w2 eq_refl H2 Hx In2).
      * exact (IH (S i) r1 r2 w1 w2 H1 H2 In1 In2).
    + destruct i as [|i]; simpl; intros H1 H2 In1 In2.
      * injection H1 as <-. injection H2 as <-.
        apply list_elem_of_singleton in In1.
        assert (Hs2 : speaker w2 = speaker x) by now apply Hall.
        congruence.
      * exact (IH i r1 r2 w1 w2 H1 H2 In1 In2).
Qed.
End SegmentBuilderFacts.

(** ** Claims on the segment builder *)

(** C1 (as amended).  For every non-empty word sequence whose word texts hold no
    space, the texts of the segments built by the loop, put one after the
    other in segment order with a space between two segments and split at the
    spaces, are the texts of the input words, in order, none missing and none
    twice. *)
Theorem C1_segments_cover_words (meetingId : string) (ws : list Word.t) :
  ws <> [] ->
  Forall (fun w => Js.lacks " " (SegmentBuilder.wordText w) = true) ws ->
  Properties.coveredWords (SegmentBuilder.buildSegments meetingId ws) =
  map SegmentBuilder.wordText ws.
Proof.
  intros Hne Hall. unfold Properties.coveredWords.
  rewrite buildSegments_runs, map_map.
  change (map (fun x => Segment.text (SegmentBuilder.segmentOfRun meetingId x))
              (SegmentBuilder.speakerRuns ws))
    with (map (fun x => Js.join " " (map SegmentBuilder.wordText x))
              (SegmentBuilder.speakerRuns ws)).
  rewrite <- (map_map (map SegmentBuilder.wordText) (Js.join " ")).
  rewrite join_concat.
  - rewrite <- concat_map, speakerRuns_concat.
    apply split_join.
    + destruct ws; [congruence | discriminate].
    + now apply Forall_map.
  - apply Forall_map. eapply Forall_impl; [apply speakerRuns_uniform_runs|].
    intros run (w & rest & -> & _). discriminate.
Qed.

Lemma C1_segments_cover_words_witness :
  Properties.coveredWords (SegmentBuilder.buildSegments "m" SegmentBuilder.scenarioA) =
  map SegmentBuilder.wordText SegmentBuilder.scenarioA.
Proof.
  apply (C1_segments_cover_words "m" SegmentBuilder.scenarioA).
  - discriminate.
  - repeat constructor.
Defined.

(** C1 fails as stated: a word text may hold a space.  The three words "hi",
    " ", "there" of one speaker give one segment with the text "hi   there",
    which splits into five pieces. *)
Lemma C1_counterexample :
  Scenario.spacedWords <> [] /\
  map Segment.text (SegmentBuilder.buildSegments "m" Scenario.spacedWords) = ["hi   there"] /\
  Properties.coveredWords (SegmentBuilder.buildSegments "m" Scenario.spacedWords)
    = ["hi"; ""; ""; "there"] /\
  Properties.coveredWords (SegmentBuilder.buildSegments "m" Scenario.spacedWords)
    <> map SegmentBuilder.wordText Scenario.spacedWords.
Proof. repeat split; try discriminate; vm_compute; reflexivity. Qed.



(** ** Running the handlers *)





(** ** Claims on the order and the legality of the writes *)




(** ** The tables under the writes of a delivery *)

Section WebhookFacts.
Import Js Http Handler Finalize Webhook.


Lemma buildSegments_meeting_id (meetingId : string) (ws : list Word.t) :
  Forall (fun s => Segment.meeting_id s = meetingId)
         (SegmentBuilder.buildSegments meetingId ws).
Proof. rewrite buildSegments_runs. apply Forall_map. now apply Forall_true. Qed.




End WebhookFacts.

(** ** Claims on repeated deliveries *)




Section LegalityFacts.
Import JobStateMachine.












End LegalityFacts.




(** ** Claims on the callback handler *)

Section RejectionFacts.
Import Js Http Handler Webhook.

Lemma webhook_forbidden (env : Env) (req : Request) (d : Db.t) (e : string) :
  WEBHOOK_SECRET env = Some e -> e <> "" -> secret req <> Some e ->
  serve env req d = (mkResponse 403 (Text "Forbidden"), mkWorld d []).
Proof.
  intros He Hne Hsecret. unfold serve, body, secretRefused. run_handler.
  rewrite He. simpl. destruct (String.eqb_spec e ""); [congruence|]. simpl.
  destruct (secret req) as [s|]; [|reflexivity].
  destruct (String.eqb_spec s e); [congruence | reflexivity].
Qed.

Lemma webhook_missing_job (env : Env) (req : Request) (d : Db.t) :
  secretRefused (WEBHOOK_SECRET env) (secret req) = false ->
  truthy (job_id req) = false ->
  serve env req d = (mkResponse 400 (Text "Missing job_id"), mkWorld d []).
Proof.
  intros Hsecret Hid. unfold serve, body. run_handler. now rewrite Hsecret, Hid.
Qed.

Lemma webhook_unknown_job (env : Env) (req : Request) (d : Db.t) (id : string)
    (payload : Payload.t) :
  secretRefused (WEBHOOK_SECRET env) (secret req) = false ->
  job_id req = Some id -> id <> "" -> json req = Some payload ->
  Db.transcription_jobs d !! id = None ->
  serve env req d = (mkResponse 404 (Text "Job not found"), mkWorld d []).
Proof.
  intros Hsecret Hid Hne Hjson Hjob. unfold serve, body. run_handler.
  rewrite Hsecret, Hid. simpl. destruct (String.eqb_spec id ""); [congruence|]. simpl.
  rewrite Hjson. cbn [db]. now rewrite Hjob.
Qed.

Lemma webhook_no_job_no_write (env : Env) (req : Request) (d : Db.t) :
  truthy (job_id req) = false \/
  (exists id, job_id req = Some id /\ Db.transcription_jobs d !! id = None) ->
  (serve env req d).2 = mkWorld d [].
Proof.
  intros Hjob. unfold serve, body, saveSegments. run_handler.
  all_branches; try reflexivity; cbn [db] in *;
    destruct Hjob as [Hmiss | (id & Hid & Hnone)]; congruence.
Qed.
End RejectionFacts.

(** C9 (as amended).  When a secret is configured, every callback whose secret
    differs from it is answered 403 and nothing is processed; when none is
    configured, no callback is refused for its secret.  A callback
    without a job identifier (absent or empty) is answered 400, "Missing
    job_id", not as not-found; a callback with a readable body for an unknown
    job identifier is answered 404.  Whatever the answer, a callback with a
    missing or unknown job identifier writes nothing. *)
Theorem C9_rejected_callbacks (env : Webhook.Env) (req : Webhook.Request) (d : Db.t) :
  (forall e, Webhook.WEBHOOK_SECRET env = Some e -> e <> "" -> Webhook.secret req <> Some e ->
     Webhook.serve env req d
     = (Http.mkResponse 403 (Http.Text "Forbidden"), Handler.mkWorld d []))
  /\ (Js.truthy (Webhook.WEBHOOK_SECRET env) = false ->
      Webhook.secretRefused (Webhook.WEBHOOK_SECRET env) (Webhook.secret req) = false)
  /\ (Webhook.secretRefused (Webhook.WEBHOOK_SECRET env) (Webhook.secret req) = false ->
      Js.truthy (Webhook.job_id req) = false ->
      Webhook.serve env req d
      = (Http.mkResponse 400 (Http.Text "Missing job_id"), Handler.mkWorld d []))
  /\ (forall id payload,
        Webhook.secretRefused (Webhook.WEBHOOK_SECRET env) (Webhook.secret req) = false ->
        Webhook.job_id req = Some id -> id <> "" -> Webhook.json req = Some payload ->
        Db.transcription_jobs d !! id = None ->
        Webhook.serve env req d
        = (Http.mkResponse 404 (Http.Text "Job not found"), Handler.mkWorld d []))
  /\ (Js.truthy (Webhook.job_id req) = false \/
      (exists id, Webhook.job_id req = Some id /\ Db.transcription_jobs d !! id = None) ->
      (Webhook.serve env req d).2 = Handler.mkWorld d []).
Proof.
  split; [intros e; apply webhook_forbidden|].
  split; [intros Hnone; unfold Webhook.secretRefused; now rewrite Hnone|].
  split; [apply webhook_missing_job|].
  split; [intros id payload; apply webhook_unknown_job | apply webhook_no_job_no_write].
Qed.

Lemma C9_rejected_callbacks_witness :
  Webhook.serve Scenario.webhookEnv Scenario.callbackWithWrongSecret Scenario.tables
  = (Http.mkResponse 403 (Http.Text "Forbidden"), Handler.mkWorld Scenario.tables [])
  /\ Webhook.serve Scenario.webhookEnv Scenario.callbackWithoutJob Scenario.tables
     = (Http.mkResponse 400 (Http.Text "Missing job_id"), Handler.mkWorld Scenario.tables [])
  /\ Webhook.serve Scenario.webhookEnv Scenario.callbackForUnknownJob Scenario.tables
     = (Http.mkResponse 404 (Http.Text "Job not found"), Handler.mkWorld Scenario.tables []).
Proof.
  split; [|split].
  - apply (proj1 (C9_rejected_callbacks Scenario.webhookEnv Scenario.callbackWithWrongSecret
                    Scenario.tables) "s3cret"); [reflexivity | discriminate | discriminate].
  - apply (proj1 (proj2 (proj2 (C9_rejected_callbacks Scenario.webhookEnv
                                  Scenario.callbackWithoutJob Scenario.tables))));
      reflexivity.
  - apply (proj1 (proj2 (proj2 (proj2 (C9_rejected_callbacks Scenario.webhookEnv
                                         Scenario.callbackForUnknownJob Scenario.tables))))
             "j9" Scenario.oneWord); reflexivity || discriminate.
Defined.

(** C9 fails as stated: a callback without a job identifier is answered with
    status 400, not with the not-found status 404. *)
Lemma C9_counterexample :
  Webhook.job_id Scenario.callbackWithoutJob = None
  /\ Webhook.serve Scenario.webhookEnv Scenario.callbackWithoutJob Scenario.tables
     = (Http.mkResponse 400 (Http.Text "Missing job_id"), Handler.mkWorld Scenario.tables [])
  /\ Http.status
       (Webhook.serve Scenario.webhookEnv Scenario.callbackWithoutJob Scenario.tables).1
     <> 404.
Proof. repeat split; vm_compute; congruence. Qed.

(** ** The callback handler against the synchronous path *)


Lemma webhook_saveSegments (meetingId : string) (payload : Payload.t) (w : Handler.World) :
  Webhook.saveSegments meetingId payload w =
  (inl tt,
   Handler.mkWorld
     (Db.applyAll (Webhook.segmentWrites meetingId payload) (Handler.db w))
     (Handler.trace w ++ Webhook.segmentWrites meetingId payload)).
Proof.
  unfold Webhook.saveSegments, Webhook.segmentWrites. run_handler.
  destruct w as [d tr].
  destruct (Finalize.wordsOf payload) as [|x ws]; simpl; [now rewrite app_nil_r|].
  all_branches; simpl; now rewrite ?app_nil_r.
Qed.

(** Where diarization is in effect and the result has words, both handlers
    write the same segments. *)
Lemma segmentWrites_agree (meetingId : string) (result : Payload.t) :
  Finalize.wordsOf result <> [] ->
  StartTranscription.segmentWrites meetingId true result
  = Webhook.segmentWrites meetingId result.
Proof.
  intros Hne. unfold StartTranscription.segmentWrites, Webhook.segmentWrites.
  destruct (Finalize.wordsOf result); [congruence | reflexivity].
Qed.

(** C6, the code at the failing inputs.  For a result with a plain text and
    no words, [start_transcription] writes the one placeholder segment and
    the callback handler writes none; with diarization switched off and a
    result with words and a text, [start_transcription] writes the one
    placeholder segment and the callback handler one segment per speaker
    run. *)
Theorem C6_callback_differs_from_synchronous_path :
  let sync := StartTranscription.serve
                (Scenario.submitEnv (Scenario.answered Scenario.plainText))
                Scenario.submit Scenario.tables in
  let hook := Webhook.serve Scenario.webhookEnv (Scenario.callback Scenario.plainText)
                Scenario.tables in
  let sync' := StartTranscription.serve
                 (Scenario.submitEnv (Scenario.answered Scenario.wordsAndText))
                 Scenario.submitWithoutDiarization Scenario.tables in
  let hook' := Webhook.serve Scenario.webhookEnv (Scenario.callback Scenario.wordsAndText)
                 Scenario.tables in
  map snd (Db.transcript_segments (Handler.db sync.2))
  = [ Segment.mk "m1" "speaker_0" "Speaker 0" 0 2000 "hello world" ]
  /\ Db.transcript_segments (Handler.db hook.2) = []
  /\ Db.meetings (Handler.db sync.2) !! "m1" = Db.meetings (Handler.db hook.2) !! "m1"
  /\ map snd (Db.transcript_segments (Handler.db sync'.2))
     = [ Segment.mk "m1" "speaker_0" "Speaker 0" 0 1400 "hi there hello" ]
  /\ map snd (Db.transcript_segments (Handler.db hook'.2))
     = [ Segment.mk "m1" "A" "Speaker A" 0 900 "hi there";
         Segment.mk "m1" "B" "Speaker B" 1000 1400 "hello" ].
Proof. cbv zeta. repeat split; vm_compute; reflexivity. Qed.

(** ** Claims on a provider failure *)

Section ProviderFailure.
Import Js Http Handler StartTranscription.



End ProviderFailure.



(** ** [String.prototype.replace] with a string pattern *)

Section ReplaceFacts.
Import Js Properties.

Lemma prefix_append (p s : string) :
  String.prefix p s = true <-> exists t, s = p +:+ t.
Proof.
  revert s. induction p as [|a p IH]; intros s.
  - split; [intros _; now exists s | intros _; now destruct s].
  - destruct s as [|b s]; simpl.
    + split; [discriminate | intros [t Ht]; discriminate Ht].
    + destruct (ascii_dec a b) as [->|Hab].
      * rewrite IH. split; intros [t Ht]; exists t.
        -- now rewrite append_cons, Ht.
        -- rewrite append_cons in Ht. now injection Ht.
      * split; [discriminate|]. intros [t Ht]. rewrite append_cons in Ht. congruence.
Qed.

Lemma drop_chars_append (p t : string) : drop_chars (String.length p) (p +:+ t) = t.
Proof. induction p as [|a p IH]; [reflexivity | exact IH]. Qed.

Lemma prefix_drop (p s : string) :
  String.prefix p s = true -> s = p +:+ drop_chars (String.length p) s.
Proof.
  intros H. apply prefix_append in H as [t ->]. now rewrite drop_chars_append.
Qed.

Lemma splitFirst_unfold (pat s : string) :
  splitFirst pat s =
  if String.prefix pat s then Some ("", drop_chars (String.length pat) s)
  else match s with
       | EmptyString => None
       | String c s' =>
           match splitFirst pat s' with
           | Some (a, b) => Some (String c a, b)
           | None => None
           end
       end.
Proof. destruct s; reflexivity. Qed.

Lemma splitFirst_Some (pat s a b : string) :
  splitFirst pat s = Some (a, b) -> FirstOccurrence pat s a b.
Proof.
  revert a b. induction s as [|c s IH]; intros a b; rewrite splitFirst_unfold.
  - destruct (String.prefix pat "") eqn:Ep; [|discriminate].
    intros [= <- <-]. split.
    + rewrite append_nil_l. now apply prefix_drop.
    + intros; simpl; lia.
  - destruct (String.prefix pat (String c s)) eqn:Ep.
    + intros [= <- <-]. split.
      * rewrite append_nil_l. now apply prefix_drop.
      * intros; simpl; lia.
    + destruct (splitFirst pat s) as [[a0 b0]|] eqn:Es; [|discriminate].
      intros [= <- <-]. destruct (IH a0 b0 eq_refl) as [Hs Hmin]. split.
      * now rewrite append_cons, <- Hs.
      * intros a' b' Ha'. destruct a' as [|c' a'].
        -- rewrite append_nil_l in Ha'.
           assert (String.prefix pat (String c s) = true)
             by (apply prefix_append; eauto).
           congruence.
        -- rewrite append_cons in Ha'. injection Ha' as _ Ha'.
           specialize (Hmin a' b' Ha'). simpl. lia.
Qed.

Lemma splitFirst_None (pat s : string) :
  splitFirst pat s = None -> ~ Contains s pat.
Proof.
  induction s as [|c s IH]; rewrite splitFirst_unfold.
  - destruct (String.prefix pat "") eqn:Ep; [discriminate|]. intros _ (a & b & H).
    destruct a; [|discriminate H]. rewrite append_nil_l in H.
    assert (String.prefix pat "" = true) by (apply prefix_append; eauto). congruence.
  - destruct (String.prefix pat (String c s)) eqn:Ep; [discriminate|].
    destruct (splitFirst pat s) as [[a0 b0]|] eqn:Es; [discriminate|].
    intros _ (a & b & H). destruct a as [|c' a].
    + rewrite append_nil_l in H.
      assert (String.prefix pat (String c s) = true) by (apply prefix_append; eauto).
      congruence.
    + rewrite append_cons in H. injection H as _ H.
      apply (IH eq_refl). now exists a, b.
Qed.

(** A replacement text without a dollar sign stands for itself. *)
Lemma getSubstitution_lacks (matched before after repl : string) :
  lacks "$" repl = true -> getSubstitution matched before after repl = repl.
Proof.
  induction repl as [|c repl IH]; [reflexivity|]. simpl.
  intros H. apply andb_prop in H as [Hc Hrest]. apply negb_true_iff in Hc.
  rewrite Hc. now rewrite IH.
Qed.

(** [replace] substitutes the first occurrence and nothing else. *)
Lemma replace_first (s pat repl : string) : FirstSubstituted pat s repl (replace s pat repl).
Proof.
  unfold replace. destruct (splitFirst pat s) as [[a b]|] eqn:Es.
  - right. exists a, b. split; [now apply splitFirst_Some|]. split; [reflexivity|].
    intros Hl. now rewrite getSubstitution_lacks.
  - left. split; [now apply splitFirst_None | reflexivity].
Qed.
End ReplaceFacts.

(** ** Claims on the summary generator *)

(** C10 (as amended).  The prompt is rendered by two calls of [replace], the
    second on the result of the first.  The first occurrence of
    [{{TRANSCRIPT}}] in the template's user prompt is substituted; then the
    first occurrence of [{{INSTRUCTIONS}}] in the text so obtained is
    substituted, which lies in the substituted transcript when the transcript
    holds that placeholder ahead of the template's own.  The text before and
    after a substituted occurrence, later occurrences included, is kept as it
    is.  A replacement without a dollar sign is inserted as it is; absent or
    empty user instructions are inserted as the text None. *)
Theorem C10_prompt_rendering (user_prompt transcriptText : string)
    (userInstructions : option string) :
  let filled := Js.replace user_prompt "{{TRANSCRIPT}}" transcriptText in
  let notes := Js.or_else userInstructions "None" in
  Properties.FirstSubstituted "{{TRANSCRIPT}}" user_prompt transcriptText filled
  /\ Properties.FirstSubstituted "{{INSTRUCTIONS}}" filled notes
       (GenerateSummary.userPrompt user_prompt transcriptText userInstructions)
  /\ (userInstructions = None \/ userInstructions = Some "" ->
      notes = "None" /\ Js.lacks "$" notes = true).
Proof.
  cbv zeta. split; [apply replace_first|]. split; [apply replace_first|].
  intros [-> | ->]; split; reflexivity.
Qed.

Lemma C10_prompt_rendering_witness :
  Js.or_else None "None" = "None" /\ Js.lacks "$" (Js.or_else None "None") = true.
Proof.
  apply (proj2 (proj2 (C10_prompt_rendering Scenario.promptTemplate
                         (GenerateSummary.transcriptText Scenario.renamedSpeaker) None))).
  left. reflexivity.
Defined.

(** C10 fails as stated: the transcript of a recording whose speaker label is
    the text of the placeholder holds [{{INSTRUCTIONS}}], it is substituted
    ahead of the template's placeholder, and the first [{{INSTRUCTIONS}}] of
    the template goes to the provider as it is. *)
Lemma C10_counterexample :
  let transcript := GenerateSummary.transcriptText Scenario.renamedSpeaker in
  let sent := GenerateSummary.userPrompt Scenario.promptTemplate transcript (Some "be brief") in
  transcript = "[0:00] {{INSTRUCTIONS}}: hi"
  /\ sent = "Transcript: [0:00] be brief: hi Notes: {{INSTRUCTIONS}}"
  /\ Properties.substituteFirsts transcript "be brief" false false 0 Scenario.promptTemplate
     = "Transcript: [0:00] {{INSTRUCTIONS}}: hi Notes: be brief"
  /\ sent <> Properties.substituteFirsts transcript "be brief" false false 0
               Scenario.promptTemplate.
Proof. cbv zeta. repeat split; vm_compute; congruence. Qed.

Section VersionFacts.
Import Js Http Handler GenerateSummary.




End VersionFacts.

Section SummaryFacts.
Import Js Http Handler GenerateSummary.



End SummaryFacts.



(** * Further properties of the code *)

(** ** The segment builder *)

Section MoreSegmentFacts.
Import Js SegmentBuilder Timeline.

Lemma lookup_map {A B} (f : A -> B) (l : list A) (i : nat) :
  map f l !! i = f <$> l !! i.
Proof. revert i. induction l as [|x l IH]; intros [|i]; simpl; auto. Qed.

Lemma speakerRuns_cons2 (w w' : Word.t) (rest : list Word.t) :
  speakerRuns (w :: w' :: rest) =
  match speakerRuns (w' :: rest) with
  | r :: rs => if String.eqb (speaker w) (speaker w') then (w :: r) :: rs
               else [w] :: r :: rs
  | [] => [[w]]
  end.
Proof.
  destruct (speakerRuns_head w' rest) as (r & rs & E).
  change (speakerRuns (w :: w' :: rest))
    with (match speakerRuns (w' :: rest) with
          | (x :: r) :: rs =>
              if String.eqb (speaker w) (speaker x) then (w :: x :: r) :: rs
              else [w] :: (x :: r) :: rs
          | _ => [[w]]
          end).
  rewrite E. reflexivity.
Qed.

Lemma length_speakerRuns (w : Word.t) (ws : list Word.t) :
  length (speakerRuns (w :: ws)) = S (speakerChanges (w :: ws)).
Proof.
  revert w. induction ws as [|w' rest IH]; intros w; [reflexivity|].
  rewrite speakerRuns_cons2. specialize (IH w').
  destruct (speakerRuns (w' :: rest)) as [|r rs]; [discriminate IH|].
  cbn [speakerChanges]. destruct (String.eqb _ _); simpl in *; lia.
Qed.

Lemma speakerChanges_bound (ws : list Word.t) : (speakerChanges ws < S (length ws))%nat.
Proof.
  induction ws as [|w [|w' rest] IH]; simpl in *; try lia.
  destruct (String.eqb _ _); lia.
Qed.

Lemma speakerChanges_cons_bound (w : Word.t) (ws : list Word.t) :
  (speakerChanges (w :: ws) <= length ws)%nat.
Proof.
  revert w. induction ws as [|w' rest IH]; intros w; [simpl; lia|].
  specialize (IH w'). cbn [speakerChanges length] in *.
  destruct (String.eqb _ _); lia.
Qed.

(** Cutting between two words of different speakers cuts the runs. *)
Lemma speakerRuns_app (a : list Word.t) (wa wb : Word.t) (b : list Word.t) :
  speaker wa <> speaker wb ->
  speakerRuns ((a ++ [wa]) ++ wb :: b) = speakerRuns (a ++ [wa]) ++ speakerRuns (wb :: b).
Proof.
  intros Hne. induction a as [|x a IH].
  - simpl app. apply (speakerRuns_break (speaker wa) [wa] wb b).
    + discriminate.
    + now repeat constructor.
    + congruence.
  - change ((x :: a) ++ [wa]) with (x :: (a ++ [wa])).
    destruct (a ++ [wa]) as [|y l] eqn:El; [destruct a; discriminate El|].
    change ((x :: y :: l) ++ wb :: b) with (x :: y :: (l ++ wb :: b)).
    change ((y :: l) ++ wb :: b) with (y :: (l ++ wb :: b)) in IH.
    rewrite !speakerRuns_cons2, IH.
    destruct (speakerRuns_head y l) as (r & rs & E). rewrite E.
    simpl. now destruct (String.eqb _ _).
Qed.

Lemma replace_prefix (p t : string) : replace (p +:+ t) p "" = t.
Proof.
  unfold replace. rewrite splitFirst_unfold.
  assert (Hp : String.prefix p (p +:+ t) = true) by (apply prefix_append; eauto).
  rewrite Hp, drop_chars_append. reflexivity.
Qed.

Lemma replace_absent (s pat repl : string) :
  ~ Properties.Contains s pat -> replace s pat repl = s.
Proof.
  intros Hno. destruct (replace_first s pat repl) as [[_ H] | (a & b & [Hs _] & _)];
    [exact H|].
  exfalso. apply Hno. now exists a, b.
Qed.

Lemma Math_round_mono (x y : Q) :
  (x <= y)%Q -> Math_round (x * 1000) <= Math_round (y * 1000).
Proof.
  intros H. unfold Math_round. apply Qfloor_resp_le.
  apply Qplus_le_compat; [|apply Qle_refl].
  apply Qmult_le_compat_r; [assumption | discriminate].
Qed.

Lemma sublist_StronglySorted {A} (R : A -> A -> Prop) (k l : list A) :
  k `sublist_of` l -> StronglySorted R l -> StronglySorted R k.
Proof.
  induction 1 as [|x k l Hsub IH|x k l Hsub IH]; intros Hs.
  - constructor.
  - inversion Hs as [|? ? Hl Hall]; subst. constructor; [now apply IH|].
    rewrite Forall_forall in *. intros y Hy. apply Hall.
    eapply elem_of_sublist; eassumption.
  - inversion Hs; subst. now apply IH.
Qed.

(** The end of the last word of a run is among the times of the run. *)
Lemma last_end_sublist (w d : Word.t) (rest : list Word.t) :
  [wordEnd (List.last (w :: rest) d)]
    `sublist_of` wordEnd w :: map (fun q => Math_round (q * 1000)) (wordTimes rest).
Proof.
  revert w. induction rest as [|w2 rest IH]; intros w.
  - apply sublist_skip, sublist_nil.
  - change (List.last (w :: w2 :: rest) d) with (List.last (w2 :: rest) d).
    apply sublist_cons. simpl. apply sublist_cons. apply IH.
Qed.

Lemma segmentTimes_sublist (meetingId : string) (runs : list (list Word.t)) :
  Forall (fun run => run <> []) runs ->
  segmentTimes (map (segmentOfRun meetingId) runs)
    `sublist_of` map (fun q => Math_round (q * 1000)) (wordTimes (concat runs)).
Proof.
  induction 1 as [|run runs Hrun _ IH]; [constructor|].
  destruct run as [|w rest]; [congruence|].
  change (concat ((w :: rest) :: runs)) with ((w :: rest) ++ concat runs).
  unfold wordTimes in *. rewrite flat_map_app, map_app.
  change (segmentTimes (map (segmentOfRun meetingId) ((w :: rest) :: runs)))
    with ([wordStart w; wordEnd (List.last (w :: rest) w)]
          ++ segmentTimes (map (segmentOfRun meetingId) runs)).
  apply sublist_app; [|exact IH].
  simpl. apply sublist_skip. apply last_end_sublist.
Qed.

Lemma runs_nonempty (ws : list Word.t) : Forall (fun run => run <> []) (speakerRuns ws).
Proof.
  eapply Forall_impl; [apply speakerRuns_uniform_runs|].
  intros run (w & rest & -> & _). discriminate.
Qed.
End MoreSegmentFacts.

(** X1.  Two segments that follow each other never have the same speaker: the
    loop closes a segment only where the speaker changes. *)
Theorem X1_adjacent_segments_differ_in_speaker (meetingId : string) (ws : list Word.t)
    (i : nat) (s1 s2 : Segment.t) :
  SegmentBuilder.buildSegments meetingId ws !! i = Some s1 ->
  SegmentBuilder.buildSegments meetingId ws !! S i = Some s2 ->
  Segment.speaker_id s1 <> Segment.speaker_id s2.
Proof.
  rewrite buildSegments_runs, !lookup_map. intros H1 H2.
  destruct (SegmentBuilder.speakerRuns ws !! i) as [r1|] eqn:E1; [|discriminate H1].
  destruct (SegmentBuilder.speakerRuns ws !! S i) as [r2|] eqn:E2; [|discriminate H2].
  injection H1 as <-. injection H2 as <-.
  pose proof (speakerRuns_uniform_runs ws) as Huni. rewrite Forall_forall in Huni.
  destruct (Huni r1) as (w1 & rest1 & -> & _); [eapply list_elem_of_lookup_2; eassumption|].
  destruct (Huni r2) as (w2 & rest2 & -> & _); [eapply list_elem_of_lookup_2; eassumption|].
  simpl.
  apply (speakerRuns_maximal ws i (w1 :: rest1) (w2 :: rest2) w1 w2 E1 E2);
    apply list_elem_of_here.
Qed.

Lemma X1_adjacent_segments_differ_in_speaker_witness : String.eqb "A" "B" = false.
Proof.
  apply String.eqb_neq.
  exact (X1_adjacent_segments_differ_in_speaker "m" SegmentBuilder.scenarioA 0
           (Segment.mk "m" "A" "Speaker A" 0 900 "hi there")
           (Segment.mk "m" "B" "Speaker B" 1000 1400 "hello") eq_refl eq_refl).
Defined.

(** X2.  A word list that is not empty gives one segment more than it has
    changes of speaker, hence at least one segment and at most one per word;
    the empty list gives none. *)
Theorem X2_segment_count (meetingId : string) (ws : list Word.t) :
  length (SegmentBuilder.buildSegments meetingId ws)
  = match ws with [] => 0%nat | _ :: _ => S (Timeline.speakerChanges ws) end
  /\ (length (SegmentBuilder.buildSegments meetingId ws) <= length ws)%nat.
Proof.
  rewrite buildSegments_runs, length_map.
  destruct ws as [|w ws]; [split; reflexivity|].
  rewrite length_speakerRuns. split; [reflexivity|].
  pose proof (speakerChanges_cons_bound w ws). simpl length. lia.
Qed.

(** X3.  Building composes over a cut between two words of different
    speakers: the segments of the whole list are those of the part before the
    cut followed by those of the part after it. *)
Theorem X3_segments_compose_at_speaker_change (meetingId : string) (a : list Word.t)
    (wa wb : Word.t) (b : list Word.t) :
  SegmentBuilder.speaker wa <> SegmentBuilder.speaker wb ->
  SegmentBuilder.buildSegments meetingId ((a ++ [wa]) ++ wb :: b)
  = SegmentBuilder.buildSegments meetingId (a ++ [wa])
    ++ SegmentBuilder.buildSegments meetingId (wb :: b).
Proof.
  intros Hne. rewrite !buildSegments_runs, speakerRuns_app by assumption.
  apply map_app.
Qed.

Lemma X3_segments_compose_at_speaker_change_witness :
  SegmentBuilder.buildSegments "m"
    (([Word.mk (Some "A") None None (Some "hi")] ++ [Word.mk (Some "A") None None (Some "there")])
     ++ Word.mk (Some "B") None None (Some "hello") :: [])
  = SegmentBuilder.buildSegments "m"
      ([Word.mk (Some "A") None None (Some "hi")] ++ [Word.mk (Some "A") None None (Some "there")])
    ++ SegmentBuilder.buildSegments "m" [Word.mk (Some "B") None None (Some "hello")].
Proof.
  apply X3_segments_compose_at_speaker_change. discriminate.
Defined.

(** X4.  When the times of the words never go back (each word starts no
    earlier than the word before it ends, and ends no earlier than it starts),
    the segments are in time order and do not overlap: each segment ends no
    earlier than it starts and no later than the next one starts. *)
Theorem X4_segments_in_time_order (meetingId : string) (ws : list Word.t) :
  Sorted Qle (Timeline.wordTimes ws) ->
  Sorted Z.le (Timeline.segmentTimes (SegmentBuilder.buildSegments meetingId ws)).
Proof.
  intros Hsorted. apply StronglySorted_Sorted.
  rewrite buildSegments_runs.
  eapply sublist_StronglySorted; [apply segmentTimes_sublist, runs_nonempty|].
  rewrite speakerRuns_concat.
  apply Sorted_StronglySorted in Hsorted; [|intros x y z; apply Qle_trans].
  clear -Hsorted. induction Hsorted as [|q l Hl IH Hall]; [constructor|].
  simpl. constructor; [exact IH|].
  apply Forall_map. eapply Forall_impl; [exact Hall|].
  intros y Hy. now apply Math_round_mono.
Qed.

Lemma X4_segments_in_time_order_witness :
  Sorted Z.le (Timeline.segmentTimes
                 (SegmentBuilder.buildSegments "m" SegmentBuilder.scenarioA)).
Proof.
  apply X4_segments_in_time_order.
  repeat (constructor; try discriminate).
Defined.

(** X5.  Every segment carries the recording's id, and its label is derived
    from its speaker id: an id of the form speaker_N gives the label
    "Speaker N", an id that does not contain the text speaker_ gives "Speaker "
    followed by the id, and a word without a speaker id counts for the speaker
    speaker_0. *)
Theorem X5_segment_labels (meetingId : string) (ws : list Word.t) :
  Forall (fun seg =>
            Segment.meeting_id seg = meetingId
            /\ (forall n, Segment.speaker_id seg = "speaker_" +:+ n ->
                          Segment.speaker_label seg = "Speaker " +:+ n)
            /\ (~ Properties.Contains (Segment.speaker_id seg) "speaker_" ->
                Segment.speaker_label seg = "Speaker " +:+ Segment.speaker_id seg))
         (SegmentBuilder.buildSegments meetingId ws)
  /\ (forall w, Word.speaker_id w = None -> SegmentBuilder.speaker w = "speaker_0").
Proof.
  split.
  - rewrite buildSegments_runs. apply Forall_map, Forall_true. intros run.
    unfold SegmentBuilder.segmentOfRun. simpl. split; [reflexivity|]. split.
    + intros n ->. now rewrite replace_prefix.
    + intros Hno. now rewrite replace_absent.
  - intros w Hw. unfold SegmentBuilder.speaker. now rewrite Hw.
Qed.

(** X6.  Words of one speaker, a single word included, give exactly one
    segment: it starts where the first word starts, ends where the last word
    ends and holds all the word texts joined by spaces. *)
Theorem X6_one_speaker_one_segment (meetingId : string) (w : Word.t) (ws : list Word.t) :
  Forall (fun w' => SegmentBuilder.speaker w' = SegmentBuilder.speaker w) ws ->
  SegmentBuilder.buildSegments meetingId (w :: ws)
  = [ Segment.mk meetingId (SegmentBuilder.speaker w)
        ("Speaker " +:+ Js.replace (SegmentBuilder.speaker w) "speaker_" "")
        (SegmentBuilder.wordStart w)
        (SegmentBuilder.wordEnd (List.last ws w))
        (Js.join " " (map SegmentBuilder.wordText (w :: ws))) ].
Proof.
  intros Hall. rewrite buildSegments_runs.
  rewrite (speakerRuns_uniform (SegmentBuilder.speaker w) (w :: ws)).
  - simpl map at 1. unfold SegmentBuilder.segmentOfRun. simpl hd. do 2 f_equal.
    destruct ws as [|w2 ws]; [reflexivity|].
    change (List.last (w :: w2 :: ws) w) with (List.last (w2 :: ws) w). reflexivity.
  - discriminate.
  - constructor; [reflexivity | exact Hall].
Qed.

Lemma X6_one_speaker_one_segment_witness :
  SegmentBuilder.buildSegments "m"
    [ Word.mk None (Some 0%Q) (Some (1 # 2)%Q) (Some "hi");
      Word.mk (Some "speaker_0") (Some (1 # 2)%Q) (Some 1%Q) (Some "all") ]
  = [ Segment.mk "m" "speaker_0" "Speaker 0" 0 1000 "hi all" ].
Proof.
  apply (X6_one_speaker_one_segment "m" (Word.mk None (Some 0%Q) (Some (1 # 2)%Q) (Some "hi"))
           [Word.mk (Some "speaker_0") (Some (1 # 2)%Q) (Some 1%Q) (Some "all")]).
  repeat constructor.
Defined.

(** ** The tables under any write *)

Section TableFacts.

Lemma meetings_apply (w : Write) (d : Db.t) :
  Db.meetings (Db.apply w d) =
  match w with
  | UpdateMeeting id status dur => alter (Db.updateMeeting status dur) id (Db.meetings d)
  | _ => Db.meetings d
  end.
Proof. destruct w; unfold Db.apply; try reflexivity; now destruct (_ : bool). Qed.

Lemma jobs_apply (w : Write) (d : Db.t) :
  Db.transcription_jobs (Db.apply w d) =
  match w with
  | InsertJob id row =>
      if bool_decide (Db.transcription_jobs d !! id = None)
         && Db.hasMeeting d (Job.meeting_id row)
      then <[id := row]> (Db.transcription_jobs d) else Db.transcription_jobs d
  | UpdateJob id p => alter (Job.update p) id (Db.transcription_jobs d)
  | _ => Db.transcription_jobs d
  end.
Proof. destruct w; unfold Db.apply; try reflexivity; now destruct (_ : bool). Qed.

Lemma segments_apply (w : Write) (d : Db.t) :
  Db.transcript_segments (Db.apply w d) =
  match w with
  | InsertSegments rows =>
      if forallb (fun r => Db.hasMeeting d (Segment.meeting_id r)) rows
      then Db.transcript_segments d ++ combine (seq (Db.next_id d) (length rows)) rows
      else Db.transcript_segments d
  | _ => Db.transcript_segments d
  end.
Proof. destruct w; unfold Db.apply; try reflexivity; now destruct (_ : bool). Qed.

Lemma summaries_apply (w : Write) (d : Db.t) :
  Db.summaries (Db.apply w d) =
  match w with
  | InsertSummary row =>
      if forallb (fun s => negb (String.eqb (Summary.id s) (Summary.id row))) (Db.summaries d)
         && Db.hasMeeting d (Summary.meeting_id row)
      then Db.summaries d ++ [row] else Db.summaries d
  | _ => Db.summaries d
  end.
Proof. destruct w; unfold Db.apply; try reflexivity; now destruct (_ : bool). Qed.

Lemma templates_apply (w : Write) (d : Db.t) :
  Db.summary_templates (Db.apply w d) = Db.summary_templates d
  /\ Db.app_settings (Db.apply w d) = Db.app_settings d.
Proof. destruct w; unfold Db.apply; try (split; reflexivity); now destruct (_ : bool). Qed.

(** No write makes a recording appear or go. *)
Lemma is_Some_meetings_apply (w : Write) (d : Db.t) (k : string) :
  is_Some (Db.meetings (Db.apply w d) !! k) <-> is_Some (Db.meetings d !! k).
Proof.
  rewrite meetings_apply. destruct w; try reflexivity.
  rewrite lookup_alter. case_decide; subst; [apply fmap_is_Some | reflexivity].
Qed.

Lemma hasMeeting_apply (w : Write) (d : Db.t) (k : string) :
  Db.hasMeeting (Db.apply w d) k = Db.hasMeeting d k.
Proof. unfold Db.hasMeeting. apply bool_decide_ext, is_Some_meetings_apply. Qed.

Lemma agreeOutside_refl (meetingId jobId : string) (d : Db.t) :
  Frame.agreeOutside meetingId jobId d d.
Proof.
  repeat split; auto. exists []. split; [now rewrite app_nil_r | constructor].
Qed.

Lemma agreeOutside_apply (meetingId jobId : string) (w : Write) (d0 d : Db.t) :
  Frame.within meetingId jobId w ->
  Frame.agreeOutside meetingId jobId d0 d ->
  Frame.agreeOutside meetingId jobId d0 (Db.apply w d).
Proof.
  intros Hw (Hm & Hdom & Hj & (new & Hseg & Hnew) & Hsum & Htpl & Hset).
  destruct (templates_apply w d) as [Et Es].
  split; [|split; [|split; [|split; [|split; [|split]]]]].
  - intros k Hk. rewrite meetings_apply, <- (Hm k Hk).
    destruct w; try reflexivity. simpl in Hw. subst. now rewrite lookup_alter_ne.
  - intros k. now rewrite is_Some_meetings_apply.
  - intros k Hk. rewrite jobs_apply, <- (Hj k Hk). destruct w; try reflexivity.
    + destruct Hw as [-> _]. destruct (_ && _); [now rewrite lookup_insert_ne | reflexivity].
    + simpl in Hw. subst. now rewrite lookup_alter_ne.
  - rewrite segments_apply. destruct w; try (exists new; now split).
    destruct (forallb _ rows); [|exists new; now split].
    exists (new ++ combine (seq (Db.next_id d) (length rows)) rows).
    split; [now rewrite Hseg, app_assoc|].
    apply Forall_app. split; [assumption|].
    simpl in Hw. clear -Hw. generalize (Db.next_id d).
    induction Hw as [|r rows Hr _ IH]; intros n; [constructor|].
    simpl. constructor; [exact Hr | apply IH].
  - rewrite summaries_apply. destruct w; try assumption. destruct Hw.
  - congruence.
  - congruence.
Qed.

Lemma agreeOutside_applyAll (meetingId jobId : string) (ws : list Write) (d0 d : Db.t) :
  Forall (Frame.within meetingId jobId) ws ->
  Frame.agreeOutside meetingId jobId d0 d ->
  Frame.agreeOutside meetingId jobId d0 (Db.applyAll ws d).
Proof.
  intros Hws. revert d. induction Hws as [|w ws Hw _ IH]; intros d Hd; [exact Hd|].
  apply IH. now apply agreeOutside_apply.
Qed.
End TableFacts.

(** ** [start_transcription]: every path *)

Section StartFacts.
Import Js Http Handler StartTranscription.

Lemma start_db_trace (env : Env) (req : Request) (d : Db.t) :
  db (serve env req d).2 = Db.applyAll (trace (serve env req d).2) d.
Proof.
  unfold serve, body, saveSegments. run_handler. all_branches; reflexivity.
Qed.

Lemma start_within (env : Env) (req : Request) (d : Db.t) :
  match json req with
  | Some params =>
      Forall (Frame.within (meetingId params) (randomUUID env)) (trace (serve env req d).2)
  | None => trace (serve env req d).2 = []
  end.
Proof.
  unfold serve, body, saveSegments. run_handler.
  all_branches; try reflexivity; repeat constructor;
    simpl; auto using buildSegments_meeting_id.
Qed.

Lemma selectMeeting_owner (meetingId user : string) (d : Db.t) (m : Meeting.t) :
  selectMeeting meetingId user d = Some m ->
  Db.meetings d !! meetingId = Some m /\ Meeting.owner_id m = user.
Proof.
  unfold selectMeeting. destruct (Db.meetings d !! meetingId) as [m'|]; [|discriminate].
  destruct (String.eqb_spec (Meeting.owner_id m') user); [|discriminate].
  intros [= <-]. auto.
Qed.

(** A run that writes has passed every check and starts with the opening
    writes. *)
Lemma start_writes_accepted (env : Env) (req : Request) (d : Db.t) :
  trace (serve env req d).2 = [] \/
  exists user params meeting rest,
    Accepted.start env req d user params meeting
    /\ trace (serve env req d).2 = Accepted.opening env params ++ rest.
Proof.
  unfold serve, body, saveSegments, Accepted.start, Accepted.opening. run_handler.
  all_branches; try (left; reflexivity); right;
    do 3 eexists; eexists;
    (split; [repeat split; try eassumption; try reflexivity|]);
    try reflexivity;
    match goal with Ha : authorization req = Some _ |- _ => rewrite Ha; assumption end.
Qed.
End StartFacts.

Section StartPaths.
Import Js Http Handler StartTranscription.

(** Run the [try] block of an accepted request up to the signed URL. *)
Ltac start_path Hacc :=
  let Hmethod := fresh "Hmethod" in
  let Hauth := fresh "Hauth" in
  let Huser := fresh "Huser" in
  let Hjson := fresh "Hjson" in
  let Hmeeting := fresh "Hmeeting" in
  let Hkey := fresh "Hkey" in
  destruct Hacc as (Hmethod & Hauth & Huser & Hjson & Hmeeting & Hkey);
  unfold body; run_handler; rewrite Hauth;
  match goal with
  | |- context [authorization ?r] =>
      destruct (authorization r); [|discriminate Hauth]
  end;
  simpl in Huser |- *; rewrite Huser, Hjson; simpl; rewrite Hmeeting; simpl; rewrite Hkey;
  match goal with
  | |- context [ELEVENLABS_API_KEY ?e] =>
      destruct (ELEVENLABS_API_KEY e); [|discriminate Hkey]
  end;
  simpl.

Lemma start_signed_url_failure (env : Env) (req : Request) (d : Db.t) (user : string)
    (params : Params) (meeting : Meeting.t) :
  Accepted.start env req d user params meeting ->
  truthy (createSignedUrl env (Meeting.media_path meeting)) = false ->
  let ws := Accepted.opening env params ++
            [ UpdateJob (randomUUID env)
                (Job.mkPatch failed (Some "Could not create signed URL") None None);
              UpdateMeeting (meetingId params) meeting_failed None ] in
  body env req (mkWorld d []) =
  (inr (Thrown "Could not create signed URL for media file"), mkWorld (Db.applyAll ws d) ws).
Proof.
  intros Hacc Hsigned. cbv zeta. start_path Hacc. rewrite Hsigned. reflexivity.
Qed.

Lemma start_no_result (env : Env) (req : Request) (d : Db.t) (user : string)
    (params : Params) (meeting : Meeting.t) :
  Accepted.start env req d user params meeting ->
  truthy (createSignedUrl env (Meeting.media_path meeting)) = true ->
  let form := formData (nullish (createSignedUrl env (Meeting.media_path meeting)) "")
                (options params) (Db.app_settings d) in
  fetch env form = None \/ (exists r, fetch env form = Some r /\ ok r = true /\ f_json r = None) ->
  exists message,
    body env req (mkWorld d []) =
    (inr (Thrown message),
     mkWorld (Db.applyAll (Accepted.opening env params) d) (Accepted.opening env params)).
Proof.
  intros Hacc Hsigned. cbv zeta. intros Hfetch. start_path Hacc. rewrite Hsigned. simpl.
  destruct Hfetch as [Hnone | (r & Hr & Hok & Hjs)].
  - rewrite Hnone. eexists. reflexivity.
  - rewrite Hr. simpl. rewrite Hok. simpl. rewrite Hjs. eexists. reflexivity.
Qed.


(** The tables after the opening writes, when the job id is fresh. *)
Lemma opening_tables (env : Env) (params : Params) (d : Db.t) (m : Meeting.t) :
  Db.meetings d !! meetingId params = Some m ->
  Db.transcription_jobs d !! randomUUID env = None ->
  let d1 := Db.applyAll (Accepted.opening env params) d in
  Db.transcription_jobs d1 !! randomUUID env
    = Some (Job.mk (meetingId params) "elevenlabs" None running None None)
  /\ Db.meetings d1 !! meetingId params = Some (Db.updateMeeting transcribing None m)
  /\ Db.transcript_segments d1 = Db.transcript_segments d
  /\ Db.next_id d1 = Db.next_id d.
Proof.
  intros Hm Hfree. cbv zeta. unfold Accepted.opening, Db.applyAll. simpl fold_left.
  set (d0 := Db.apply (UpdateMeeting _ _ _) d).
  assert (Hhas : Db.hasMeeting d0 (meetingId params) = true).
  { unfold d0. rewrite hasMeeting_apply. unfold Db.hasMeeting.
    apply bool_decide_eq_true. rewrite Hm. eauto. }
  assert (Hfree0 : bool_decide (Db.transcription_jobs d0 !! randomUUID env = None) = true)
    by (apply bool_decide_eq_true; exact Hfree).
  split; [|split; [|split]].
  - rewrite jobs_apply. cbn [Job.meeting_id]. rewrite Hfree0, Hhas. simpl.
    apply lookup_insert_eq.
  - rewrite meetings_apply. unfold d0. rewrite meetings_apply.
    now rewrite lookup_alter_eq, Hm.
  - now rewrite !segments_apply.
  - unfold Db.apply at 1. now destruct (_ && _).
Qed.
End StartPaths.

Section StartOutcomes.
Import Js Http Handler StartTranscription.

Lemma applyAll_app (ws1 ws2 : list Write) (d : Db.t) :
  Db.applyAll (ws1 ++ ws2) d = Db.applyAll ws2 (Db.applyAll ws1 d).
Proof. unfold Db.applyAll. apply fold_left_app. Qed.

Lemma start_accepted_meeting (env : Env) (req : Request) (d : Db.t) (user : string)
    (params : Params) (meeting : Meeting.t) :
  Accepted.start env req d user params meeting ->
  Db.meetings d !! meetingId params = Some meeting /\ Meeting.owner_id meeting = user.
Proof. intros (_ & _ & _ & _ & Hm & _). now apply selectMeeting_owner. Qed.
End StartOutcomes.

(** ** Properties of [start_transcription] *)

(** X7.  [start_transcription] writes nothing unless the caller is
    authenticated, the request body is readable, the recording exists and
    belongs to the caller, and the provider key is configured; a run that
    writes starts by setting that recording to transcribing and creating its
    job as running. *)
Theorem X7_start_writes_only_for_the_owner (env : StartTranscription.Env)
    (req : StartTranscription.Request) (d : Db.t) :
  Handler.trace (StartTranscription.serve env req d).2 = [] \/
  exists user params meeting rest,
    Accepted.start env req d user params meeting
    /\ Db.meetings d !! StartTranscription.meetingId params = Some meeting
    /\ Meeting.owner_id meeting = user
    /\ Handler.trace (StartTranscription.serve env req d).2
       = Accepted.opening env params ++ rest.
Proof.
  destruct (start_writes_accepted env req d) as [H | (user & params & meeting & rest & Hacc & Ht)];
    [now left | right].
  exists user, params, meeting, rest.
  destruct (start_accepted_meeting env req d user params meeting Hacc) as [Hm Ho].
  split; [exact Hacc|]. split; [exact Hm|]. split; [exact Ho | exact Ht].
Qed.

(** X8.  A run of [start_transcription] touches the recording named in the
    request and the job under the id it has drawn, and nothing else: every
    other recording and job is as before, no recording appears or goes, the
    segment rows of before are kept and only rows of that recording are added,
    and summaries, templates and settings are as before.  Without a readable
    body the tables are as before. *)
Theorem X8_start_touches_one_recording_and_job (env : StartTranscription.Env)
    (req : StartTranscription.Request) (d : Db.t) :
  match StartTranscription.json req with
  | Some params =>
      Frame.agreeOutside (StartTranscription.meetingId params)
        (StartTranscription.randomUUID env) d
        (Handler.db (StartTranscription.serve env req d).2)
  | None => Handler.db (StartTranscription.serve env req d).2 = d
  end.
Proof.
  rewrite start_db_trace. pose proof (start_within env req d) as Hw.
  destruct (StartTranscription.json req) as [params|].
  - apply agreeOutside_applyAll; [exact Hw | apply agreeOutside_refl].
  - now rewrite Hw.
Qed.

(** X9.  When the storage service gives no signed URL for the media file,
    the job is left failed with the error "Could not create signed URL", the
    recording is left failed, no segment is written, and the caller gets
    status 500 with the message of the error the handler has thrown. *)
Theorem X9_no_signed_url (env : StartTranscription.Env) (req : StartTranscription.Request)
    (d : Db.t) (user : string) (params : StartTranscription.Params) (meeting : Meeting.t) :
  Accepted.start env req d user params meeting ->
  Js.truthy (StartTranscription.createSignedUrl env (Meeting.media_path meeting)) = false ->
  Db.transcription_jobs d !! StartTranscription.randomUUID env = None ->
  let run := StartTranscription.serve env req d in
  let d' := Handler.db run.2 in
  let message := "Could not create signed URL for media file" in
  run.1 = Http.mkResponse 500 (Http.Error message)
  /\ StartTranscription.outcome env req d = inr message
  /\ Db.transcription_jobs d' !! StartTranscription.randomUUID env
     = Some (Job.mk (StartTranscription.meetingId params) "elevenlabs" None failed
               (Some "Could not create signed URL") None)
  /\ Db.meetings d' !! StartTranscription.meetingId params
     = Some (Meeting.mk (Meeting.owner_id meeting) (Meeting.media_path meeting)
               (Meeting.duration_seconds meeting) meeting_failed)
  /\ Db.transcript_segments d' = Db.transcript_segments d.
Proof.
  intros Hacc Hsigned Hfree. cbv zeta.
  destruct (start_accepted_meeting env req d user params meeting Hacc) as [Hm _].
  unfold StartTranscription.serve, StartTranscription.outcome.
  destruct Hacc as (Hmethod & Hrest). rewrite Hmethod.
  rewrite (start_signed_url_failure env req d user params meeting (conj Hmethod Hrest) Hsigned).
  cbn [fst snd Handler.db]. rewrite applyAll_app.
  destruct (opening_tables env params d meeting Hm Hfree) as (Hj & Hm1 & Hs & _).
  cbv zeta in Hj, Hm1, Hs. set (d1 := Db.applyAll (Accepted.opening env params) d) in *.
  unfold Db.applyAll. cbn [fold_left].
  split; [reflexivity|]. split; [reflexivity|]. split; [|split].
  - rewrite !jobs_apply, lookup_alter_eq, Hj. reflexivity.
  - rewrite !meetings_apply, lookup_alter_eq, Hm1. reflexivity.
  - now rewrite !segments_apply.
Qed.

Lemma X9_no_signed_url_witness :
  let run := StartTranscription.serve Scenario.submitEnvWithoutUrl Scenario.submit
               Scenario.tables in
  let d' := Handler.db run.2 in
  let message := "Could not create signed URL for media file" in
  run.1 = Http.mkResponse 500 (Http.Error message)
  /\ StartTranscription.outcome Scenario.submitEnvWithoutUrl Scenario.submit Scenario.tables
     = inr message
  /\ Db.transcription_jobs d' !! "j2"
     = Some (Job.mk "m1" "elevenlabs" None failed (Some "Could not create signed URL") None)
  /\ Db.meetings d' !! "m1" = Some (Meeting.mk "u1" "u1/talk.mp3" None meeting_failed)
  /\ Db.transcript_segments d' = Db.transcript_segments Scenario.tables.
Proof.
  apply (X9_no_signed_url Scenario.submitEnvWithoutUrl Scenario.submit Scenario.tables "u1"
           (StartTranscription.mkParams "m1" None) Scenario.talk).
  - repeat split.
  - reflexivity.
  - reflexivity.
Defined.

Section StartSuccess.
Import Js Http Handler StartTranscription.

Lemma forallb_hasMeeting_rows (meetingId : string) (rows : list Segment.t) (d : Db.t) :
  Db.hasMeeting d meetingId = true ->
  Forall (fun r => Segment.meeting_id r = meetingId) rows ->
  forallb (fun r => Db.hasMeeting d (Segment.meeting_id r)) rows = true.
Proof.
  intros Hm Hall. apply forallb_forall. intros r Hr.
  rewrite Forall_forall in Hall. rewrite (Hall r); [assumption | now apply list_elem_of_In].
Qed.


End StartSuccess.





(** X12.  When the call to the provider fails without an answer, or its
    answer has a success status and a body that is not JSON, the handler
    answers 500 and records no failure: the job stays running and the
    recording stays transcribing. *)
Theorem X12_no_answer_leaves_job_running (env : StartTranscription.Env)
    (req : StartTranscription.Request) (d : Db.t) (user : string)
    (params : StartTranscription.Params) (meeting : Meeting.t) :
  Accepted.start env req d user params meeting ->
  Js.truthy (StartTranscription.createSignedUrl env (Meeting.media_path meeting)) = true ->
  let form :=
    StartTranscription.formData
      (Js.nullish (StartTranscription.createSignedUrl env (Meeting.media_path meeting)) "")
      (StartTranscription.options params) (Db.app_settings d) in
  StartTranscription.fetch env form = None
  \/ (exists r, StartTranscription.fetch env form = Some r
                /\ Http.ok r = true /\ Http.f_json r = None) ->
  Db.transcription_jobs d !! StartTranscription.randomUUID env = None ->
  let run := StartTranscription.serve env req d in
  let d' := Handler.db run.2 in
  Http.status run.1 = 500
  /\ Db.transcription_jobs d' !! StartTranscription.randomUUID env
     = Some (Job.mk (StartTranscription.meetingId params) "elevenlabs" None running None None)
  /\ Db.meetings d' !! StartTranscription.meetingId params
     = Some (Meeting.mk (Meeting.owner_id meeting) (Meeting.media_path meeting)
               (Meeting.duration_seconds meeting) transcribing)
  /\ Db.transcript_segments d' = Db.transcript_segments d.
Proof.
  intros Hacc Hsigned. cbv zeta. intros Hfetch Hfree.
  destruct (start_accepted_meeting env req d user params meeting Hacc) as [Hm _].
  unfold StartTranscription.serve. destruct Hacc as (Hmethod & Hrest). rewrite Hmethod.
  destruct (start_no_result env req d user params meeting (conj Hmethod Hrest) Hsigned Hfetch)
    as [message ->].
  cbn [fst snd Handler.db Http.status].
  destruct (opening_tables env params d meeting Hm Hfree) as (Hj & Hm1 & Hs & _).
  repeat split; assumption.
Qed.

Lemma X12_no_answer_leaves_job_running_witness :
  let run := StartTranscription.serve Scenario.submitEnvOffline Scenario.submit Scenario.tables in
  let d' := Handler.db run.2 in
  Http.status run.1 = 500
  /\ Db.transcription_jobs d' !! "j2" = Some (Job.mk "m1" "elevenlabs" None running None None)
  /\ Db.meetings d' !! "m1" = Some (Meeting.mk "u1" "u1/talk.mp3" None transcribing)
  /\ Db.transcript_segments d' = Db.transcript_segments Scenario.tables.
Proof.
  apply (X12_no_answer_leaves_job_running Scenario.submitEnvOffline Scenario.submit
           Scenario.tables "u1" (StartTranscription.mkParams "m1" None) Scenario.talk).
  - repeat split.
  - reflexivity.
  - left. reflexivity.
  - reflexivity.
Defined.

(** ** Properties of the callback handler *)

Section CallbackFacts.
Import Js Http Handler Webhook.

Lemma webhook_db_trace (env : Env) (req : Request) (d : Db.t) :
  db (serve env req d).2 = Db.applyAll (trace (serve env req d).2) d.
Proof.
  unfold serve, body, saveSegments. run_handler. all_branches; reflexivity.
Qed.

Lemma webhook_within (env : Env) (req : Request) (d : Db.t) :
  match job_id req with
  | Some jobId =>
      match Db.transcription_jobs d !! jobId with
      | Some job => Forall (Frame.within (Job.meeting_id job) jobId) (trace (serve env req d).2)
      | None => trace (serve env req d).2 = []
      end
  | None => trace (serve env req d).2 = []
  end.
Proof.
  unfold serve, body, saveSegments. run_handler.
  all_branches; try reflexivity; cbn [db] in *; simplify_eq;
    repeat constructor; simpl; auto using buildSegments_meeting_id.
Qed.



End CallbackFacts.




(** X15.  A delivery touches the job it names and that job's recording, and
    nothing else: other jobs and recordings are as before, the segment rows of
    before are kept and only rows of that recording are added; a delivery
    that names no job, or an unknown one, leaves the tables as they are. *)
Theorem X15_delivery_touches_one_job_and_recording (env : Webhook.Env)
    (req : Webhook.Request) (d : Db.t) :
  match Webhook.job_id req with
  | Some jobId =>
      match Db.transcription_jobs d !! jobId with
      | Some job =>
          Frame.agreeOutside (Job.meeting_id job) jobId d
            (Handler.db (Webhook.serve env req d).2)
      | None => Handler.db (Webhook.serve env req d).2 = d
      end
  | None => Handler.db (Webhook.serve env req d).2 = d
  end.
Proof.
  rewrite webhook_db_trace. pose proof (webhook_within env req d) as Hw.
  destruct (Webhook.job_id req) as [jobId|]; [|now rewrite Hw].
  destruct (Db.transcription_jobs d !! jobId) as [job|]; [|now rewrite Hw].
  apply agreeOutside_applyAll; [exact Hw | apply agreeOutside_refl].
Qed.

(** ** Properties of the summary generator *)

Section SummaryPaths.
Import Js Http Handler GenerateSummary.

(** Every run writes nothing, or one summary row after passing every check
    and getting an answer of the provider. *)
Lemma summary_paths (env : Env) (req : Request) (d : Db.t) :
  (serve env req d).2 = mkWorld d [] /\ (forall id v c, Http.body (serve env req d).1 <> SummaryCreated id v c)
  \/ exists user params meeting template r result,
       Prompt.accepted env req d user params meeting template
       /\ fetch env (Prompt.chat params template.2 (Db.app_settings d)
                       (selectSegments (meetingId params) d)) = Some r
       /\ ok r = true /\ f_json r = Some result
       /\ let row := Summary.mk (randomUUID env) (meetingId params)
                       (nextVersion (existingSummaries (meetingId params) d)) template.1
                       (GenerateSummary.model
                          (Prompt.chat params template.2 (Db.app_settings d)
                             (selectSegments (meetingId params) d)))
                       (or_else (LlmResult.content result) "") result in
          serve env req d
          = (mkResponse 200 (SummaryCreated (Summary.id row) (Summary.version row)
                               (Summary.content_md row)),
             mkWorld (Db.apply (InsertSummary row) d) [InsertSummary row]).
Proof.
  unfold serve, GenerateSummary.body, Prompt.accepted, Prompt.chat. run_handler.
  all_branches; try (left; split; [reflexivity | intros; discriminate]).
  cbn [db] in *. right. do 6 eexists.
  split; [|split; [eassumption | split; [|split; [eassumption | reflexivity]]]].
  - repeat split; try eassumption; eauto.
    intros E.
    match goal with
    | Hlen : (length _ =? 0)%nat = false |- _ => rewrite E in Hlen; discriminate Hlen
    end.
  - match goal with Hok : negb (ok _) = false |- _ => now apply negb_false_iff in Hok end.
Qed.
End SummaryPaths.

Section SummaryMore.
Import Js Http Handler GenerateSummary.

Lemma summary_selectMeeting_ready (meetingId user : string) (d : Db.t) (m : Meeting.t) :
  selectMeeting meetingId user d = Some m ->
  Db.meetings d !! meetingId = Some m /\ Meeting.owner_id m = user /\ Meeting.status m = ready.
Proof.
  unfold selectMeeting. destruct (Db.meetings d !! meetingId) as [m'|]; [|discriminate].
  destruct (String.eqb_spec (Meeting.owner_id m') user); [|discriminate].
  destruct (Meeting.status m') eqn:Es; try discriminate.
  intros [= <-]. auto.
Qed.


End SummaryMore.

(** X16.  The summary generator writes only after every check has passed and
    the provider has answered with a readable body: the caller is
    authenticated and owns the recording, the recording is ready and has
    segments, a template is found and the provider key is set.  The provider
    is sent the template's system prompt and the rendered user prompt over the
    segments in order of start; the one row written carries the drawn id, the
    next version, the template's id, the model asked and the content of the
    answer (empty when it has none), and the caller is answered with that id,
    version and content.  On every other path nothing is written and no
    summary is announced. *)
Theorem X16_summary_written_only_after_all_checks (env : GenerateSummary.Env)
    (req : GenerateSummary.Request) (d : Db.t) :
  let run := GenerateSummary.serve env req d in
  (run.2 = Handler.mkWorld d []
   /\ forall id v c, Http.body run.1 <> Http.SummaryCreated id v c)
  \/ exists user params meeting template r result,
       Prompt.accepted env req d user params meeting template
       /\ Db.meetings d !! GenerateSummary.meetingId params = Some meeting
       /\ Meeting.owner_id meeting = user /\ Meeting.status meeting = ready
       /\ let chat := Prompt.chat params template.2 (Db.app_settings d)
                        (GenerateSummary.selectSegments (GenerateSummary.meetingId params) d) in
          let row := Summary.mk (GenerateSummary.randomUUID env)
                       (GenerateSummary.meetingId params)
                       (GenerateSummary.nextVersion
                          (GenerateSummary.existingSummaries
                             (GenerateSummary.meetingId params) d))
                       template.1 (GenerateSummary.model chat)
                       (Js.or_else (LlmResult.content result) "") result in
          GenerateSummary.fetch env chat = Some r
          /\ Http.ok r = true /\ Http.f_json r = Some result
          /\ run = (Http.mkResponse 200
                      (Http.SummaryCreated (Summary.id row) (Summary.version row)
                         (Summary.content_md row)),
                    Handler.mkWorld (Db.apply (InsertSummary row) d) [InsertSummary row]).
Proof.
  cbv zeta.
  destruct (summary_paths env req d)
    as [H | (user & params & meeting & template & r & result & Hacc & Hf & Hok & Hjs & Hrun)];
    [now left | right].
  exists user, params, meeting, template, r, result.
  pose proof Hacc as (_ & _ & _ & Hm & _).
  apply summary_selectMeeting_ready in Hm as (Hm & Ho & Hs).
  repeat (split; [assumption|]). exact Hrun.
Qed.

(** X17.  Summaries are never changed or removed by the generator: after any
    run the summaries of before are still there, in order, followed by at
    most one new row; recordings, jobs, segments, templates and settings are
    as before. *)
Theorem X17_summaries_only_grow (env : GenerateSummary.Env) (req : GenerateSummary.Request)
    (d : Db.t) :
  let d' := Handler.db (GenerateSummary.serve env req d).2 in
  (exists new, Db.summaries d' = Db.summaries d ++ new /\ (length new <= 1)%nat)
  /\ Db.meetings d' = Db.meetings d
  /\ Db.transcription_jobs d' = Db.transcription_jobs d
  /\ Db.transcript_segments d' = Db.transcript_segments d
  /\ Db.summary_templates d' = Db.summary_templates d
  /\ Db.app_settings d' = Db.app_settings d.
Proof.
  cbv zeta.
  destruct (summary_paths env req d)
    as [[-> _] | (user & params & meeting & template & r & result & _ & _ & _ & _ & Hrun)].
  - cbn [Handler.db]. repeat split. exists []. split; [now rewrite app_nil_r | simpl; lia].
  - cbv zeta in Hrun. rewrite Hrun. cbn [snd Handler.db].
    rewrite summaries_apply, meetings_apply, jobs_apply, segments_apply.
    destruct (templates_apply (InsertSummary
                (Summary.mk (GenerateSummary.randomUUID env) (GenerateSummary.meetingId params)
                   (GenerateSummary.nextVersion
                      (GenerateSummary.existingSummaries (GenerateSummary.meetingId params) d))
                   template.1
                   (GenerateSummary.model
                      (Prompt.chat params template.2 (Db.app_settings d)
                         (GenerateSummary.selectSegments (GenerateSummary.meetingId params) d)))
                   (Js.or_else (LlmResult.content result) "") result)) d) as [Et Es].
    rewrite Et, Es. repeat split.
    destruct (_ && _).
    + eexists. split; [reflexivity | simpl; lia].
    + exists []. split; [now rewrite app_nil_r | simpl; lia].
Qed.

Arguments GenerateSummary.selectSegments : simpl never.
Arguments GenerateSummary.selectTemplate : simpl never.
Arguments GenerateSummary.selectMeeting : simpl never.

(** X18.  The summary generator refuses a request, writing nothing: without
    an Authorization header it answers 500 (the header is read unchecked);
    for an authenticated caller it answers 404 when the recording is missing,
    not the caller's or not ready, 400 "No summary template found" when no
    template is selected, and 400 "No transcript segments found" when the
    recording has no segment. *)
Theorem X18_summary_refusals (env : GenerateSummary.Env) (req : GenerateSummary.Request)
    (d : Db.t) :
  String.eqb (GenerateSummary.method req) "OPTIONS" = false ->
  let run := GenerateSummary.serve env req d in
  let refused status message :=
    run = (Http.mkResponse status (Http.Error message), Handler.mkWorld d []) in
  (GenerateSummary.authorization req = None ->
   Http.status run.1 = 500 /\ run.2 = Handler.mkWorld d [])
  /\ (forall header user params,
        GenerateSummary.authorization req = Some header ->
        GenerateSummary.getUser env (Js.replace header "Bearer " "") = Some user ->
        GenerateSummary.json req = Some params ->
        let meetingId := GenerateSummary.meetingId params in
        (GenerateSummary.selectMeeting meetingId user d = None ->
         refused 404 "Meeting not found or not ready")
        /\ (forall meeting,
              GenerateSummary.selectMeeting meetingId user d = Some meeting ->
              (GenerateSummary.selectTemplate (GenerateSummary.templateId params) d = None ->
               refused 400 "No summary template found")
              /\ (forall template,
                    GenerateSummary.selectTemplate (GenerateSummary.templateId params) d
                    = Some template ->
                    GenerateSummary.selectSegments meetingId d = [] ->
                    refused 400 "No transcript segments found"))).
Proof.
  intros Hmethod. cbv zeta.
  unfold GenerateSummary.serve, GenerateSummary.body. run_handler. rewrite Hmethod.
  split.
  - intros ->. simpl. auto.
  - intros header user params -> Huser Hjson. simpl. rewrite Huser, Hjson. simpl. split.
    + intros ->. reflexivity.
    + intros meeting ->. simpl. split.
      * intros ->. reflexivity.
      * intros template ->. cbn [Handler.db]. intros ->. reflexivity.
Qed.

Lemma X18_summary_refusals_witness :
  GenerateSummary.serve Scenario.summaryEnv Scenario.summarize Scenario.readyWithoutSegments
  = (Http.mkResponse 400 (Http.Error "No transcript segments found"),
     Handler.mkWorld Scenario.readyWithoutSegments []).
Proof.
  refine (proj2 (proj2 (proj2 (X18_summary_refusals Scenario.summaryEnv Scenario.summarize
                                 Scenario.readyWithoutSegments eq_refl)
                          "Bearer token" "u1" (GenerateSummary.mkParams "m1" None None None None)
                          eq_refl eq_refl eq_refl)
                   (Meeting.mk "u1" "u1/talk.mp3" (Some 1) ready) eq_refl)
            ("t1", Template.mk "You summarise." Scenario.promptTemplate true) _ eq_refl).
  vm_compute. reflexivity.
Defined.



Section ReadingFacts.
Import Js GenerateSummary.

Lemma insertBy_perm {A} (le : A -> A -> bool) (x : A) (l : list A) :
  Permutation (Db.insertBy le x l) (x :: l).
Proof.
  induction l as [|y l IH]; simpl; [reflexivity|].
  destruct (le x y); [reflexivity|].
  rewrite IH. apply perm_swap.
Qed.

Lemma orderBy_perm {A} (le : A -> A -> bool) (l : list A) : Permutation (Db.orderBy le l) l.
Proof.
  induction l as [|x l IH]; [reflexivity|].
  unfold Db.orderBy in *. simpl. rewrite insertBy_perm. now constructor.
Qed.

Lemma insertBy_sorted {A} (le : A -> A -> bool) (x : A) (l : list A) :
  (forall a b, le a b = true \/ le b a = true) ->
  Sorted (fun a b => le a b = true) l ->
  Sorted (fun a b => le a b = true) (Db.insertBy le x l).
Proof.
  intros Htotal Hs. induction Hs as [|y l Hl IH Hhd]; simpl; [repeat constructor|].
  destruct (le x y) eqn:Exy.
  - constructor; [now constructor | now constructor].
  - constructor; [exact IH|].
    destruct l as [|z l]; simpl.
    + constructor. destruct (Htotal x y); congruence.
    + destruct (le x z); constructor.
      * destruct (Htotal x y); congruence.
      * now inversion Hhd.
Qed.

Lemma orderBy_sorted {A} (le : A -> A -> bool) (l : list A) :
  (forall a b, le a b = true \/ le b a = true) ->
  Sorted (fun a b => le a b = true) (Db.orderBy le l).
Proof.
  intros Htotal. induction l as [|x l IH]; [constructor|].
  unfold Db.orderBy in *. simpl. now apply insertBy_sorted.
Qed.

Lemma Sorted_weaken {A} (R R' : A -> A -> Prop) (l : list A) :
  (forall a b, R a b -> R' a b) -> Sorted R l -> Sorted R' l.
Proof.
  intros Himp. induction 1 as [|a l Hl IH Hhd]; constructor; [exact IH|].
  destruct Hhd; constructor. now apply Himp.
Qed.

Lemma NoDup_all_equal {A} (a : A) (l : list A) :
  NoDup l -> (forall x, x ∈ l -> x = a) -> a ∈ l -> l = [a].
Proof.
  intros Hnd Hall Ha. destruct l as [|x [|y l]].
  - now apply elem_of_nil in Ha.
  - f_equal. apply Hall, list_elem_of_here.
  - exfalso. apply NoDup_cons in Hnd as [Hx _]. apply Hx.
    rewrite (Hall x), <- (Hall y); [apply list_elem_of_here | |apply list_elem_of_here].
    apply list_elem_of_further, list_elem_of_here.
Qed.

Lemma twoDigits_padStart (s : Z) :
  0 <= s < 60 -> padStart 2 "0" (String_of_Z s) = Clock.twoDigits s.
Proof.
  intros Hs.
  assert (Hall : forallb (fun n => String.eqb (padStart 2 "0" (String_of_Z (Z.of_nat n)))
                                      (Clock.twoDigits (Z.of_nat n)))
                         (seq 0 60) = true) by (vm_compute; reflexivity).
  rewrite forallb_forall in Hall.
  specialize (Hall (Z.to_nat s)). rewrite Z2Nat.id in Hall by lia.
  apply String.eqb_eq, Hall, in_seq. lia.
Qed.
End ReadingFacts.

(** X20.  Without a template id in the request (or with an empty one) a
    template is selected exactly when one template, and no other, is flagged
    as default; with two default templates none is selected.  With a template
    id, the template of that id is selected whether it is a default or not. *)
Theorem X20_template_selection (d : Db.t) :
  (forall tid id t,
     Js.truthy tid = false ->
     GenerateSummary.selectTemplate tid d = Some (id, t) <->
     Db.summary_templates d !! id = Some t /\ Template.is_default t = true
     /\ forall id' t', Db.summary_templates d !! id' = Some t' ->
                       Template.is_default t' = true -> id' = id)
  /\ (forall id, id <> "" ->
        GenerateSummary.selectTemplate (Some id) d
        = (fun t => (id, t)) <$> Db.summary_templates d !! id).
Proof.
  split.
  - intros tid id t Htid. unfold GenerateSummary.selectTemplate. rewrite Htid.
    set (l := filter _ (map_to_list (Db.summary_templates d))).
    assert (Hin : forall i x, (i, x) ∈ l <->
                  Db.summary_templates d !! i = Some x /\ Template.is_default x = true).
    { intros i x. unfold l. rewrite list_elem_of_filter, elem_of_map_to_list. simpl. tauto. }
    split.
    + destruct l as [|r [|r' l']] eqn:El; try discriminate. intros [= ->].
      destruct (proj1 (Hin id t) (list_elem_of_here _ _)) as [Hl Hd].
      repeat split; try assumption.
      intros id' t' Hl' Hd'.
      assert (Hmem : (id', t') ∈ [(id, t)]) by (apply Hin; auto).
      apply list_elem_of_singleton in Hmem. congruence.
    + intros (Hl & Hd & Huniq).
      rewrite (NoDup_all_equal (id, t) l); [reflexivity | | |].
      * unfold l. apply NoDup_filter, NoDup_map_to_list.
      * intros [i x] Hx. apply Hin in Hx as [Hli Hdi].
        assert (i = id) by (eapply Huniq; eassumption). subst. congruence.
      * apply Hin. auto.
  - intros id Hne. unfold GenerateSummary.selectTemplate. simpl.
    destruct (String.eqb_spec id ""); [congruence | reflexivity].
Qed.

(** X21.  For a time that is not negative, the printed time is the whole
    minutes, not reduced to hours, a colon, and the remaining whole seconds
    in exactly two digits. *)
Theorem X21_formatTime (ms : Z) :
  0 <= ms ->
  GenerateSummary.formatTime ms
  = Js.String_of_Z (ms / 60000) +:+ ":" +:+ Clock.twoDigits ((ms / 1000) mod 60).
Proof.
  intros Hms. unfold GenerateSummary.formatTime. cbv zeta.
  rewrite Z.rem_mod_nonneg by (try apply Z.div_pos; lia).
  rewrite Zdiv_Zdiv by lia. change (1000 * 60) with 60000.
  rewrite twoDigits_padStart; [reflexivity|].
  apply Z.mod_pos_bound. lia.
Qed.

Lemma X21_formatTime_witness : GenerateSummary.formatTime 3725000 = "62:05".
Proof. apply (X21_formatTime 3725000). discriminate. Defined.

(** X22.  The segments read for a summary are all the segments of the
    recording, each once, in ascending order of their start. *)
Theorem X22_segments_read_in_order (meetingId : string) (d : Db.t) :
  Sorted (fun a b => Segment.start_ms a <= Segment.start_ms b)
         (GenerateSummary.selectSegments meetingId d)
  /\ Permutation (GenerateSummary.selectSegments meetingId d)
       (filter (fun s => Segment.meeting_id s = meetingId)
               (map snd (Db.transcript_segments d))).
Proof.
  unfold GenerateSummary.selectSegments. split; [|apply orderBy_perm].
  eapply Sorted_weaken;
    [|apply (orderBy_sorted (fun a b => (Segment.start_ms a <=? Segment.start_ms b)%Z))].
  - intros a b. apply Z.leb_le.
  - intros a b. rewrite !Z.leb_le. lia.
Qed.

Arguments StartTranscription.selectMeeting : simpl never.

(** X23.  [start_transcription] refuses a request, writing nothing: 401
    without an Authorization header (or with an empty one), 401 when the
    authentication service does not know the bearer token, 404 when the
    recording is missing or not the caller's, and 500 when the provider key is
    not configured.  The token handed to the authentication service is the
    header without its leading "Bearer ". *)
Theorem X23_start_refusals (env : StartTranscription.Env) (req : StartTranscription.Request)
    (d : Db.t) :
  String.eqb (StartTranscription.method req) "OPTIONS" = false ->
  let run := StartTranscription.serve env req d in
  let refused status message :=
    run = (Http.mkResponse status (Http.Error message), Handler.mkWorld d []) in
  (Js.truthy (StartTranscription.authorization req) = false ->
   refused 401 "Missing Authorization header")
  /\ (forall token,
        StartTranscription.authorization req = Some ("Bearer " +:+ token) ->
        (StartTranscription.getUser env token = None -> refused 401 "Unauthorized")
        /\ (forall user params,
              StartTranscription.getUser env token = Some user ->
              StartTranscription.json req = Some params ->
              (StartTranscription.selectMeeting (StartTranscription.meetingId params) user d
               = None -> refused 404 "Meeting not found")
              /\ (forall meeting,
                    StartTranscription.selectMeeting (StartTranscription.meetingId params) user d
                    = Some meeting ->
                    Js.truthy (StartTranscription.ELEVENLABS_API_KEY env) = false ->
                    refused 500 "ElevenLabs API key not configured"))).
Proof.
  intros Hmethod. cbv zeta.
  unfold StartTranscription.serve, StartTranscription.body. run_handler. rewrite Hmethod.
  split.
  - intros ->. reflexivity.
  - intros token Hauth. rewrite Hauth. cbn [Js.truthy].
    change (negb (String.eqb ("Bearer " +:+ token) "")) with true. cbv iota.
    rewrite replace_prefix. split.
    + intros ->. reflexivity.
    + intros user params -> ->. cbn [Handler.db]. split.
      * intros ->. reflexivity.
      * intros meeting -> ->. reflexivity.
Qed.

Lemma X23_start_refusals_witness :
  StartTranscription.serve (Scenario.submitEnv (Scenario.answered Scenario.oneWord))
    (StartTranscription.mkRequest "POST" (Some "Bearer token")
       (Some (StartTranscription.mkParams "m9" None)))
    Scenario.tables
  = (Http.mkResponse 404 (Http.Error "Meeting not found"), Handler.mkWorld Scenario.tables []).
Proof.
  refine (proj1 (proj2 (proj2 (X23_start_refusals
                                 (Scenario.submitEnv (Scenario.answered Scenario.oneWord))
                                 (StartTranscription.mkRequest "POST" (Some "Bearer token")
                                    (Some (StartTranscription.mkParams "m9" None)))
                                 Scenario.tables eq_refl)
                          "token" eq_refl)
                   "u1" (StartTranscription.mkParams "m9" None) eq_refl eq_refl) _).
  vm_compute. reflexivity.
Defined.

(** ** The storage path of an upload *)

Section UploadFacts.
Import Js Upload.

Lemma lastIndexOf_spec (c : ascii) (s : string) :
  (lastIndexOf c s = -1 /\ lacks c s = true)
  \/ (exists a b, s = a +:+ String c b /\ lacks c b = true
                  /\ lastIndexOf c s = Z.of_nat (String.length a)
                  /\ lacks c s = false).
Proof.
  induction s as [|d s IH]; [left; split; reflexivity|].
  cbn [lastIndexOf lacks].
  destruct IH as [[Hi Hl] | (a & b & -> & Hb & Hi & Hl)].
  - rewrite Hi, Hl. cbn [Z.leb Z.compare]. cbv iota.
    destruct (Ascii.eqb_spec d c) as [->|Hne].
    + right. exists "", s. repeat split; auto.
    + left. split; reflexivity.
  - right. exists (String d a), b. rewrite Hi, Hl.
    destruct (Z.leb_spec 0 (Z.of_nat (String.length a))); [|lia].
    repeat split; auto.
    + cbn [String.length]. lia.
    + apply andb_false_r.
Qed.

Lemma slice_at (a t : string) : slice (Z.of_nat (String.length a)) (a +:+ t) = t.
Proof.
  unfold slice. rewrite length_append.
  destruct (Z.ltb_spec (Z.of_nat (String.length a)) 0); [lia|].
  rewrite Z.min_l by lia. rewrite Nat2Z.id. apply drop_chars_append.
Qed.
End UploadFacts.

(** X24.  The extension kept for the stored file is the part of the file name
    from its last dot on: the file name is a stem followed by the extension,
    and the extension is empty when the name has no dot and otherwise a dot
    followed by text without a dot.  The stored name is "recording" with that
    extension, under the caller's and the recording's ids. *)
Theorem X24_upload_extension (userId meetingId filename : string) :
  (exists stem, filename = stem +:+ Upload.ext filename)
  /\ ((Js.lacks "." filename = true /\ Upload.ext filename = "")
      \/ (exists e, Upload.ext filename = String "." e /\ Js.lacks "." e = true))
  /\ Upload.storagePath userId meetingId filename
     = userId +:+ "/" +:+ meetingId +:+ "/original/recording" +:+ Upload.ext filename.
Proof.
  unfold Upload.ext, Upload.includes.
  destruct (lastIndexOf_spec "." filename) as [[Hi Hl] | (a & b & -> & Hb & Hi & Hl)].
  - rewrite Hl. cbn [negb]. split; [exists filename; now rewrite append_nil_r|].
    split; [left; auto|].
    unfold Upload.storagePath, Upload.safeFilename, Upload.ext, Upload.includes.
    rewrite Hl. reflexivity.
  - rewrite Hl, Hi, slice_at. cbn [negb]. split; [now exists a|].
    split; [right; eauto|].
    unfold Upload.storagePath, Upload.safeFilename, Upload.ext, Upload.includes.
    rewrite Hl, Hi, slice_at. reflexivity.
Qed.

(** ** The summary that is mailed *)

Section LatestSummary.
Import Js GenerateSummary.

Lemma latestSummary_spec (meetingId : string) (d : Db.t) :
  match SendEmail.latestSummary meetingId d with
  | Some row =>
      row ∈ Db.summaries d /\ Summary.meeting_id row = meetingId
      /\ forall s, s ∈ Db.summaries d -> Summary.meeting_id s = meetingId ->
                   Summary.version s <= Summary.version row
  | None => forall s, s ∈ Db.summaries d -> Summary.meeting_id s <> meetingId
  end.
Proof.
  unfold SendEmail.latestSummary.
  set (le := fun a b => (Summary.version b <=? Summary.version a)%Z).
  set (l := filter _ (Db.summaries d)).
  pose proof (orderBy_perm le l) as Hperm.
  assert (Hsorted : Sorted (fun a b => Summary.version b <= Summary.version a)
                           (Db.orderBy le l)).
  { eapply Sorted_weaken; [|apply (orderBy_sorted le)].
    - intros a b. apply Z.leb_le.
    - intros a b. unfold le. rewrite !Z.leb_le. lia. }
  apply Sorted_StronglySorted in Hsorted; [|intros a b c; lia].
  destruct (Db.orderBy le l) as [|row rest]; cbn [firstn head].
  - apply Permutation_nil in Hperm. intros s Hs Hm.
    assert (Hin : s ∈ l) by (apply list_elem_of_filter; auto).
    rewrite Hperm in Hin. now apply elem_of_nil in Hin.
  - assert (Hrow : row ∈ l) by (rewrite <- Hperm; apply list_elem_of_here).
    apply list_elem_of_filter in Hrow as [Hm Hrow]. repeat split; auto.
    intros s Hs Hsm.
    assert (Hin : s ∈ l) by (apply list_elem_of_filter; auto).
    rewrite <- Hperm in Hin. apply elem_of_cons in Hin as [-> | Hin]; [lia|].
    apply StronglySorted_inv in Hsorted as [_ Hall].
    rewrite List.Forall_forall in Hall. apply Hall. now apply list_elem_of_In.
Qed.


End LatestSummary.

(** X25.  The summary that [send_email] mails is a summary of the recording
    whose version is not below that of any other summary of the recording;
    none is found exactly when the recording has no summary. *)
Theorem X25_mailed_summary_is_latest (meetingId : string) (d : Db.t) :
  match SendEmail.latestSummary meetingId d with
  | Some row =>
      row ∈ Db.summaries d /\ Summary.meeting_id row = meetingId
      /\ forall s, s ∈ Db.summaries d -> Summary.meeting_id s = meetingId ->
                   Summary.version s <= Summary.version row
  | None => forall s, s ∈ Db.summaries d -> Summary.meeting_id s <> meetingId
  end.
Proof. apply latestSummary_spec. Qed.



(** ** Times on the pages *)

Section PageFacts.
Import Js.

Lemma twoDigits_padStart_100 (s : Z) :
  0 <= s < 100 -> padStart 2 "0" (String_of_Z s) = Clock.twoDigits s.
Proof.
  intros Hs.
  assert (Hall : forallb (fun n => String.eqb (padStart 2 "0" (String_of_Z (Z.of_nat n)))
                                      (Clock.twoDigits (Z.of_nat n)))
                         (seq 0 100) = true) by (vm_compute; reflexivity).
  rewrite forallb_forall in Hall.
  specialize (Hall (Z.to_nat s)). rewrite Z2Nat.id in Hall by lia.
  apply String.eqb_eq, Hall, in_seq. lia.
Qed.
End PageFacts.

(** X27.  The dashboard shows "-" for a recording without a stored duration
    and for a duration of zero seconds, and otherwise the whole minutes, a
    colon and the remaining seconds in two digits.  The recording dialog
    shows, below one hundred minutes, minutes and seconds in two digits each. *)
Theorem X27_page_times (s : Z) :
  Pages.formatDuration None = "-"
  /\ Pages.formatDuration (Some 0) = "-"
  /\ (0 < s ->
      Pages.formatDuration (Some s)
      = Js.String_of_Z (s / 60) +:+ ":" +:+ Clock.twoDigits (s mod 60))
  /\ (0 <= s < 6000 ->
      Pages.formatTime s = Clock.twoDigits (s / 60) +:+ ":" +:+ Clock.twoDigits (s mod 60)).
Proof.
  split; [reflexivity|]. split; [reflexivity|]. split.
  - intros Hs. unfold Pages.formatDuration.
    destruct (Z.eqb_spec s 0); [lia|].
    rewrite Z.rem_mod_nonneg by lia.
    rewrite twoDigits_padStart_100; [reflexivity|].
    pose proof (Z.mod_pos_bound s 60). lia.
  - intros Hs. unfold Pages.formatTime.
    rewrite Z.rem_mod_nonneg by lia.
    rewrite !twoDigits_padStart_100; [reflexivity| |].
    + pose proof (Z.mod_pos_bound s 60). lia.
    + split; [apply Z.div_pos; lia | apply Z.div_lt_upper_bound; lia].
Qed.
